(** * promplot: chart composition and command-line driver

    A shallow embedding of the two Go sources of promplot:

    - package [promplot], function [Plot] together with the package
      variable [labelText];
    - package [main], functions [main] and [fatal].

    Go values of type [error] are represented by their message text.
    Calls into other packages (gonum/plot, brewer, strconv, the
    Prometheus model, the Metrics and Slack collaborators) are kept
    abstract in the class [Externals]; the [regexp] package is modelled
    for the fragment of the syntax the program uses. *)

From Stdlib Require Import String Ascii List ZArith Lia Bool Arith.
From Stdlib Require Strings.Byte.
Import ListNotations.

Local Open Scope list_scope.
Local Open Scope string_scope.

(** Go's [error] interface, identified with the text of [Error()]. *)
Definition error := string.

(** A line feed, and the two braces of the label pattern. *)
Definition LF : ascii := ascii_of_nat 10.
Definition nl : string := String LF "".
Definition lbrace : ascii := "{"%char.
Definition rbrace : ascii := "}"%char.

(** A double quote. *)
Definition dq : string := String (ascii_of_nat 34) "".

(** [occurs c s]: the byte [c] appears somewhere in [s]. *)
Fixpoint occurs (c : ascii) (s : string) : bool :=
  match s with
  | EmptyString => false
  | String a s' => Ascii.eqb a c || occurs c s'
  end.

(** * Package regexp, for the fragment used by [labelText] *)

Module Regexp.

(** One-byte matchers: a literal and the dot (any byte except a line
    feed, the default without the [s] flag). *)
Inductive Atom : Type :=
| Literal (c : ascii)
| AnyCharNotNL.

(** The operators of regexp/syntax that the fragment needs. A star is
    applied to a one-byte matcher only. *)
Inductive Regexp : Type :=
| OpEmptyMatch
| OpChar (a : Atom)
| OpStar (a : Atom)
| OpConcat (r1 r2 : Regexp)
| OpCapture (i : nat) (r : Regexp).

Definition accepts (a : Atom) (c : ascii) : bool :=
  match a with
  | Literal l => Ascii.eqb c l
  | AnyCharNotNL => negb (Ascii.eqb c LF)
  end.

(** ** Parsing a pattern *)

Fixpoint mkConcat (items : list Regexp) : Regexp :=
  match items with
  | [] => OpEmptyMatch
  | [r] => r
  | r :: rs => OpConcat r (mkConcat rs)
  end.

(** An open group: its capture index and the items read before it
    (most recent first). *)
Definition frame := (nat * list Regexp)%type.

(** Bytes with a meaning of their own in a pattern; outside an escape
    only [.], [*], [(] and [)] are supported, the others are refused. *)
Definition is_meta (c : ascii) : bool :=
  existsb (Ascii.eqb c)
    ["\"; "."; "+"; "*"; "?"; "("; ")"; "|"; "["; "]"; "{"; "}"; "^"; "$"]%char.

(** [parse p ncap cur stack]: [cur] holds the items of the innermost
    open group, most recent first; [ncap] counts the groups opened so
    far. *)
Fixpoint parse (p : string) (ncap : nat) (cur : list Regexp)
         (stack : list frame) : option Regexp :=
  match p with
  | EmptyString =>
      match stack with
      | [] => Some (mkConcat (rev cur))
      | _ :: _ => None
      end
  | String c p' =>
      if Ascii.eqb c "\" then
        match p' with
        | String e p'' =>
            if is_meta e then parse p'' ncap (OpChar (Literal e) :: cur) stack
            else None
        | EmptyString => None
        end
      else if Ascii.eqb c "." then
        parse p' ncap (OpChar AnyCharNotNL :: cur) stack
      else if Ascii.eqb c "*" then
        match cur with
        | OpChar a :: cur' => parse p' ncap (OpStar a :: cur') stack
        | _ => None
        end
      else if Ascii.eqb c "(" then
        parse p' (S ncap) [] ((S ncap, cur) :: stack)
      else if Ascii.eqb c ")" then
        match stack with
        | (i, outer) :: stack' =>
            parse p' ncap (OpCapture i (mkConcat (rev cur)) :: outer) stack'
        | [] => None
        end
      else if is_meta c then None
      else parse p' ncap (OpChar (Literal c) :: cur) stack
  end.

Definition Compile (pattern : string) : option Regexp :=
  parse pattern 0 [] [].

(** ** Matching *)

Fixpoint NumSubexp (r : Regexp) : nat :=
  match r with
  | OpConcat r1 r2 => NumSubexp r1 + NumSubexp r2
  | OpCapture _ r' => S (NumSubexp r')
  | _ => 0
  end.

(** Submatches: index 0 is the whole match, index [i] is group [i]. *)
Definition caps := list string.

Fixpoint set_cap (i : nat) (v : string) (cs : caps) : caps :=
  match i, cs with
  | _, [] => []
  | O, _ :: t => v :: t
  | S j, h :: t => h :: set_cap j v t
  end.

(** The text read between position [s] and the later position [s']. *)
Definition consumed (s s' : string) : string :=
  substring 0 (String.length s - String.length s') s.

Definition cont := string -> caps -> option caps.

(** A greedy star: take one more byte when possible, and give bytes
    back one at a time when the rest of the pattern fails. *)
Fixpoint greedy (a : Atom) (s : string) (cs : caps) (k : cont) : option caps :=
  match s with
  | EmptyString => k s cs
  | String c s' =>
      if accepts a c then
        match greedy a s' cs k with
        | Some m => Some m
        | None => k s cs
        end
      else k s cs
  end.

(** Backtracking match of [r] at the start of [s]; [k] matches what
    follows [r]. The first success in this order is the match Go
    reports (leftmost-first). *)
Fixpoint exec (r : Regexp) (s : string) (cs : caps) (k : cont) : option caps :=
  match r with
  | OpEmptyMatch => k s cs
  | OpChar a =>
      match s with
      | String c s' => if accepts a c then k s' cs else None
      | EmptyString => None
      end
  | OpStar a => greedy a s cs k
  | OpConcat r1 r2 => exec r1 s cs (fun s' cs' => exec r2 s' cs' k)
  | OpCapture i r' =>
      exec r' s cs (fun s' cs' => k s' (set_cap i (consumed s s') cs'))
  end.

Definition matchAt (re : Regexp) (s : string) : option caps :=
  exec re s (repeat "" (S (NumSubexp re)))
       (fun s' cs => Some (set_cap 0 (consumed s s') cs)).

(** [re.FindStringSubmatch(s)]: the leftmost match and its groups, or
    [None] for Go's nil slice. *)
Fixpoint FindStringSubmatch (re : Regexp) (s : string) : option (list string) :=
  match matchAt re s with
  | Some m => Some m
  | None =>
      match s with
      | EmptyString => None
      | String _ s' => FindStringSubmatch re s'
      end
  end.

End Regexp.

Import Regexp.

(** The package variable [labelText]: the pattern is a backslash-escaped
    opening brace, a group holding dot-star, and a backslash-escaped
    closing brace. *)
Definition labelText_pattern : string := "\{(.*)\}".

Definition labelText : Regexp :=
  Eval cbv in
    match Compile labelText_pattern with
    | Some r => r
    | None => OpEmptyMatch
    end.

(** * Outcomes of fallible Go calls *)

(** [Ok a] stands for the pair (a, nil), [Err e] for a zero value
    together with the error [e], and [Panic] for a run-time panic. *)
Inductive result (A : Type) : Type :=
| Ok (a : A)
| Err (e : error)
| Panic.

Arguments Ok {A} a.
Arguments Err {A} e.
Arguments Panic {A}.

(** The statement pair: call, then return nil and [wrap err] when the
    error is not nil. *)
Definition bindErr {A B : Type} (r : result A) (wrap : error -> error)
           (k : A -> result B) : result B :=
  match r with
  | Ok a => k a
  | Err e => Err (wrap e)
  | Panic => Panic
  end.

Notation "x <- r 'orReturn' w ;; k" := (bindErr r w (fun x => k))
  (at level 61, r at next level, w at next level, right associativity).

(** [fmt.Errorf] with a fixed text followed by one verb. *)
Definition Errorf (text : string) (arg : string) : error := text ++ arg.

Definition err_of {A : Type} (r : result A) : option error :=
  match r with
  | Err e => Some e
  | _ => None
  end.

(** * Package vg: lengths *)

(** The lengths of the program are whole multiples of a unit, so they
    are kept with their unit. *)
Inductive Length : Type :=
| Millimeters (n : Z)
| Points (n : Z).

Definition Millimeter : Length := Millimeters 1.
Definition Centimeter : Length := Millimeters 10.

Definition times (k : Z) (l : Length) : Length :=
  match l with
  | Millimeters n => Millimeters (k * n)
  | Points n => Points (k * n)
  end.

Definition minus (l : Length) : Length := times (-1) l.

(** * The types of the other packages *)

Class Types : Type := {
  (** the built-in float64 *)
  float64 : Type;
  (** model.Metric, model.SampleValue and model.Time *)
  Metric : Type;
  SampleValue : Type;
  Time : Type;
  (** color.Color *)
  Color : Type;
  (** vg.Font *)
  Font : Type;
  (** vg.CanvasWriterTo *)
  Canvas : Type;
  (** time.Time *)
  GoTime : Type
}.

Inductive PaletteType : Type := TypeAny | TypeSequential | TypeDiverging | TypeQualitative.

(** plot.Ticker: only the marker the program installs is told apart. *)
Inductive Ticker : Type :=
| DefaultTicks
| TimeTicks (Format : string).

Section Data.

Context {T : Types}.

(** model.SamplePair and model.SampleStream; model.Matrix is a slice
    of sample streams. *)
Record SamplePair : Type := {
  Timestamp : Time;
  Value : SampleValue
}.

Record SampleStream : Type := {
  SMetric : Metric;
  Values : list SamplePair
}.

Definition Matrix : Type := list SampleStream.

(** plotter.XYs is a slice of points. *)
Record XY : Type := { X : float64; Y : float64 }.

(** plotter.Line, with the two fields of its line style that the
    program writes. *)
Record Line : Type := {
  XYs : list XY;
  LineStyle_Width : Length;
  LineStyle_Color : Color
}.

(** plot.Plot, with the fields the program writes, the plotters added
    with [Add] and the entries added with [Legend.Add]. *)
Record PlotT : Type := {
  Title_Text : string;
  Title_Font : Font;
  Title_Padding : Length;
  X_Tick_Marker : Ticker;
  X_Tick_Label_Font : Font;
  Y_Tick_Label_Font : Font;
  Legend_Font : Font;
  Legend_Top : bool;
  Legend_YOffs : Length;
  Legend_entries : list (string * Line);
  plotters : list Line
}.

(** [p.Add(l)] and [p.Legend.Add(name, l)] append. *)
Definition Add (p : PlotT) (l : Line) : PlotT :=
  {| Title_Text := Title_Text p;
     Title_Font := Title_Font p;
     Title_Padding := Title_Padding p;
     X_Tick_Marker := X_Tick_Marker p;
     X_Tick_Label_Font := X_Tick_Label_Font p;
     Y_Tick_Label_Font := Y_Tick_Label_Font p;
     Legend_Font := Legend_Font p;
     Legend_Top := Legend_Top p;
     Legend_YOffs := Legend_YOffs p;
     Legend_entries := Legend_entries p;
     plotters := (plotters p ++ [l])%list |}.

Definition Legend_Add (p : PlotT) (name : string) (l : Line) : PlotT :=
  {| Title_Text := Title_Text p;
     Title_Font := Title_Font p;
     Title_Padding := Title_Padding p;
     X_Tick_Marker := X_Tick_Marker p;
     X_Tick_Label_Font := X_Tick_Label_Font p;
     Y_Tick_Label_Font := Y_Tick_Label_Font p;
     Legend_Font := Legend_Font p;
     Legend_Top := Legend_Top p;
     Legend_YOffs := Legend_YOffs p;
     Legend_entries := (Legend_entries p ++ [(name, l)])%list;
     plotters := plotters p |}.

(** Where [io.Copy] writes to. *)
Inductive Dest : Type :=
| Stdout_file
| Created (path : string).

End Data.

(** * The functions of the other packages *)

Class Externals (T : Types) : Type := {
  (** the conversion float64(n) of an int64 *)
  float64_of_int64 : Z -> float64;
  (** strconv.ParseFloat(s, bitSize) *)
  ParseFloat : string -> nat -> result float64;
  (** the verb %q of package fmt *)
  Quote : string -> string;
  (** the String methods of model.Metric and model.SampleValue, and
      model.Time.Unix *)
  Metric_String : Metric -> string;
  SampleValue_String : SampleValue -> string;
  Time_Unix : Time -> Z;
  (** brewer.GetPalette(type, name, n) followed by Colors() *)
  GetPalette : PaletteType -> string -> nat -> result (list Color);
  (** vg.MakeFont(name, size) *)
  MakeFont : string -> Length -> result Font;
  (** plot.New: the default font it loads, which is all that can fail,
      and the line style plotter.NewLine starts from *)
  DefaultFont : result Font;
  DefaultLineStyle_Width : Length;
  DefaultLineStyle_Color : Color;
  (** the check of plotter.CopyXYs, which refuses NaN and infinite
      coordinates *)
  CheckFloats : list XY -> option error;
  (** draw.NewFormattedCanvas(w, h, format) *)
  NewFormattedCanvas : Length -> Length -> string -> result Canvas;
  (** p.Draw on the canvas cropped by (left, right, bottom, top), and
      the canvas's WriteTo into a fresh buffer *)
  Draw : PlotT -> Canvas -> Length * Length * Length * Length -> Canvas;
  WriteTo : Canvas -> result (list Byte.byte);
  (** promplot.Metrics and promplot.Slack, the collaborators of the
      same repository *)
  Metrics : string -> string -> GoTime -> Z -> Z -> result Matrix;
  Slack : string -> string -> string -> list Byte.byte -> result unit;
  (** os.Create and io.Copy *)
  os_Create : string -> result unit;
  io_Copy : Dest -> list Byte.byte -> result unit;
  (** the text flag.PrintDefaults writes, and the build constants *)
  flag_defaults : string;
  version : string;
  GOOS : string;
  GOARCH : string
}.

(** * Package promplot: Plot *)

Section Promplot.

Context {T : Types} {E : Externals T}.

(** plot.New: a plot with the default font everywhere, no plotter and
    an empty legend. *)
Definition plot_New : result PlotT :=
  f <- DefaultFont orReturn (fun e => e) ;;
  Ok {| Title_Text := "";
        Title_Font := f;
        Title_Padding := Points 0;
        X_Tick_Marker := DefaultTicks;
        X_Tick_Label_Font := f;
        Y_Tick_Label_Font := f;
        Legend_Font := f;
        Legend_Top := false;
        Legend_YOffs := Points 0;
        Legend_entries := [];
        plotters := [] |}.

(** plotter.NewLine: the points are copied after the check, and the
    line gets the default style. *)
Definition NewLine (data : list XY) : result Line :=
  match CheckFloats data with
  | Some e => Err e
  | None => Ok {| XYs := data;
                  LineStyle_Width := DefaultLineStyle_Width;
                  LineStyle_Color := DefaultLineStyle_Color |}
  end.

(** The assignments to the title, the axes and the legend. *)
Definition configure (p : PlotT) (title : string) (titleFont textFont : Font) : PlotT :=
  {| Title_Text := title;
     Title_Font := titleFont;
     Title_Padding := times 2 Centimeter;
     X_Tick_Marker := TimeTicks ("2006-01-02" ++ nl ++ "15:04");
     X_Tick_Label_Font := textFont;
     Y_Tick_Label_Font := textFont;
     Legend_Font := textFont;
     Legend_Top := true;
     Legend_YOffs := times 15 Millimeter;
     Legend_entries := Legend_entries p;
     plotters := plotters p |}.

Definition paletteSize : nat := 8.

(** The inner loop: one point per sample pair, in order; the first
    value that does not parse ends [Plot]. *)
Fixpoint points (values : list SamplePair) : result (list XY) :=
  match values with
  | [] => Ok []
  | v :: values' =>
      let x := float64_of_int64 (Time_Unix (Timestamp v)) in
      f <- ParseFloat (SampleValue_String (Value v)) 64
        orReturn (fun _ => Errorf "sample value not float: " (SampleValue_String (Value v))) ;;
      data <- points values' orReturn (fun e => e) ;;
      Ok ({| X := x; Y := f |} :: data)
  end.

Definition styled (l : Line) (w : Length) (c : Color) : Line :=
  {| XYs := XYs l; LineStyle_Width := w; LineStyle_Color := c |}.

(** The outer loop from index [s] on; [n] is len(metrics) and [re] the
    value of the package variable [labelText]. Indexing a slice out of
    its range panics. *)
Fixpoint series (re : Regexp) (n : nat) (colors : list Color) (s : nat)
         (rest : Matrix) (p : PlotT) : result PlotT :=
  match rest with
  | [] => Ok p
  | sample :: rest' =>
      data <- points (Values sample) orReturn (fun e => e) ;;
      l <- NewLine data orReturn Errorf "failed creating line: " ;;
      match nth_error colors (s mod paletteSize) with
      | None => Panic
      | Some c =>
          let l := styled l (Points 1) c in
          let p := Add p l in
          if Nat.ltb 1 n then
            match FindStringSubmatch re (Metric_String (SMetric sample)) with
            | Some m =>
                match nth_error m 1 with
                | Some name => series re n colors (S s) rest' (Legend_Add p name l)
                | None => Panic
                end
            | None => series re n colors (S s) rest' p
            end
          else series re n colors (S s) rest' p
      end
  end.

(** [Plot] up to the end of the loop over the series. *)
Definition composeWith (re : Regexp) (metrics : Matrix) (title : string) : result PlotT :=
  p <- plot_New orReturn Errorf "failed creating new plot: " ;;
  titleFont <- MakeFont "Helvetica-Bold" Centimeter
    orReturn Errorf "failed creating font: " ;;
  textFont <- MakeFont "Helvetica" (times 3 Millimeter)
    orReturn Errorf "failed creating font: " ;;
  let p := configure p title titleFont textFont in
  colors <- GetPalette TypeAny "Dark2" paletteSize
    orReturn Errorf "cannot get color palette: " ;;
  series re (length metrics) colors 0 metrics p.

Definition compose : Matrix -> string -> result PlotT := composeWith labelText.

(** The rest of [Plot]: the canvas, the drawing and the buffer. *)
Definition render (p : PlotT) (format : string) : result (list Byte.byte) :=
  let margin := times 6 Millimeter in
  let width := times 24 Centimeter in
  let height := times 20 Centimeter in
  c <- NewFormattedCanvas width height format
    orReturn Errorf "failed creating image canvas: " ;;
  let c := Draw p c (margin, minus margin, margin, minus margin) in
  b <- WriteTo c orReturn Errorf "failed saving plot: " ;;
  Ok b.

Definition PlotWith (re : Regexp) (metrics : Matrix) (title format : string)
  : result (list Byte.byte) :=
  p <- composeWith re metrics title orReturn (fun e => e) ;;
  render p format.

Definition Plot : Matrix -> string -> string -> result (list Byte.byte) :=
  PlotWith labelText.

End Promplot.

(** * Package main *)

Module Main.

(** The two streams the program prints to. *)
Inductive stream : Type := Stdout | Stderr.

(** What a run does, in order: texts printed with package fmt, and
    the calls that can fail, each with the error it returned. *)
Inductive callee {T : Types} : Type :=
| CallMetrics (url query : string) (time : GoTime) (range step : Z)
| CallPlot (metrics : Matrix) (title format : string)
| CallCreate (path : string)
| CallCopy (dst : Dest) (data : list Byte.byte)
| CallSlack (token channel title : string) (data : list Byte.byte).

Inductive event {T : Types} : Type :=
| Print (to : stream) (text : string)
| Call (c : callee) (err : option error).

(** How a piece of the program ends: it goes on with a value, it
    leaves through os.Exit, or it panics. *)
Inductive outcome (A : Type) : Type :=
| Returned (a : A)
| Exit (code : Z)
| Crash.

Arguments Returned {A} a.
Arguments Exit {A} code.
Arguments Crash {A}.

(** The exit status of the process: returning from main is status 0,
    a panic is status 2. *)
Definition status {A : Type} (o : outcome A) : Z :=
  match o with
  | Returned _ => 0
  | Exit code => code
  | Crash => 2
  end.

(** The values of the command-line flags after flag.Parse, and the
    program name os.Args[0]. *)
Record Flags {T : Types} : Type := {
  silent : bool;
  versionFlag : bool;
  promServer : string;
  query : string;
  queryTime : GoTime;
  duration : Z;
  title : string;
  format : string;
  file : string;
  slackToken : string;
  channel : string;
  arg0 : string
}.

Section Program.

Context {T : Types} {E : Externals T}.

(** A computation extends the trace and ends in an outcome. *)
Definition M (A : Type) : Type := list event -> list event * outcome A.

Definition ret {A : Type} (a : A) : M A := fun tr => (tr, Returned a).

Definition bind {A B : Type} (m : M A) (f : A -> M B) : M B :=
  fun tr =>
    match m tr with
    | (tr', Returned a) => f a tr'
    | (tr', Exit code) => (tr', Exit code)
    | (tr', Crash) => (tr', Crash)
    end.

Definition emit (e : event) : M unit := fun tr => ((tr ++ [e])%list, Returned tt).
Definition os_Exit {A : Type} (code : Z) : M A := fun tr => (tr, Exit code).
Definition panic {A : Type} : M A := fun tr => (tr, Crash).

Definition when (b : bool) (m : M unit) : M unit := if b then m else ret tt.

(** A call that can fail is entered in the trace with its error. *)
Definition call {A : Type} (c : callee) (r : result A) : M (result A) :=
  bind (emit (Call c (err_of r))) (fun _ => ret r).

Notation "x <~ m ;; k" := (bind m (fun x => k))
  (at level 61, m at next level, right associativity).
Notation "m >> k" := (bind m (fun _ => k))
  (at level 61, right associativity).

(** The constants [usage], [more] and [step]; [usage] is given with
    its verb filled in. *)
Definition usage (name : string) : string :=
  nl ++ "Usage: " ++ name ++ " [flags...]" ++ nl ++
  nl ++ "Create and deliver plots from your Prometheus metrics." ++ nl ++
  nl ++ "Save plot to file or send it right to a slack channel." ++
  nl ++ "At least one of -slack or -file must be set." ++ nl ++
  nl ++
  nl ++ "Flags:" ++ nl.

Definition more : string := nl ++ "For more visit: https://qvl.io/promplot".

Definition step : Z := 100.

(** The function installed as flag.Usage. *)
Definition flag_Usage (f : Flags) : M unit :=
  emit (Print Stderr (usage (arg0 f))) >>
  emit (Print Stderr flag_defaults) >>
  emit (Print Stderr (more ++ nl)).

(** The test guarding the usage exit. *)
Definition required_missing (f : Flags) : bool :=
  (promServer f =? "") || (query f =? "") || (duration f =? 0)%Z ||
  ((file f =? "") && ((slackToken f =? "") || (channel f =? ""))).

(** The logging helper, with its format already filled in. *)
Definition log (f : Flags) (text : string) : M unit :=
  if negb (silent f) then emit (Print Stderr (text ++ nl)) else ret tt.

Definition fatal (err : option error) (msg : string) : M unit :=
  match err with
  | Some e => emit (Print Stderr ("msg: " ++ e ++ nl)) >> os_Exit 1
  | None => ret tt
  end.

(** A call whose error goes to [fatal] in the next statement. After
    an error [fatal] does not return, so nothing runs behind it. *)
Definition checked {A : Type} (c : callee) (r : result A) (msg : string) : M A :=
  r <~ call c r ;;
  match r with
  | Ok a => fatal None msg >> ret a
  | Err e => fatal (Some e) msg >> panic
  | Panic => panic
  end.

Definition main (f : Flags) : M unit :=
  when (versionFlag f)
    (emit (Print Stdout
             ("promplot " ++ version ++ " " ++ GOOS ++ " " ++ GOARCH ++ nl)) >>
     os_Exit 0) >>
  when (required_missing f) (flag_Usage f >> os_Exit 1) >>
  log f ("Querying Prometheus " ++ Quote (query f)) >>
  metrics <~ checked
    (CallMetrics (promServer f) (query f) (queryTime f) (duration f) step)
    (Metrics (promServer f) (query f) (queryTime f) (duration f) step)
    "failed getting metrics" ;;
  log f ("Creating plot " ++ Quote (title f)) >>
  plot <~ checked
    (CallPlot metrics (title f) (format f))
    (Plot metrics (title f) (format f))
    "failed creating plot" ;;
  plot <~ (if negb (file f =? "") then
             (* the tee fills a buffer with what the copy reads *)
             out <~ (if file f =? "-" then
                       log f "Writing to stdout" >> ret Stdout_file
                     else
                       log f ("Writing to '" ++ file f ++ "'") >>
                       checked (CallCreate (file f)) (os_Create (file f))
                         "failed creating file" >>
                       ret (Created (file f))) ;;
             checked (CallCopy out plot) (io_Copy out plot)
               "failed copying file" >>
             ret plot
           else ret plot) ;;
  when (negb (slackToken f =? ""))
    (log f ("Uploading to Slack channel " ++ Quote (channel f)) >>
     checked (CallSlack (slackToken f) (channel f) (title f) plot)
       (Slack (slackToken f) (channel f) (title f) plot)
       "failed creating plot") >>
  log f "Done".

(** A run of the program starts from the empty trace. *)
Definition run (f : Flags) : list event * outcome unit := main f [].

(** The text that reached a stream. *)
Fixpoint printed (to : stream) (tr : list event) : string :=
  match tr with
  | [] => ""
  | Print Stdout text :: tr' =>
      match to with
      | Stdout => text ++ printed to tr'
      | Stderr => printed to tr'
      end
  | Print Stderr text :: tr' =>
      match to with
      | Stdout => printed to tr'
      | Stderr => text ++ printed to tr'
      end
  | Call _ _ :: tr' => printed to tr'
  end.

End Program.

End Main.

(** * A small implementation of the other packages

    It is used to run the program on concrete inputs. Sample values are
    kept in their textual form, metrics in their rendered form, times in
    milliseconds. *)

Module Sample.

(** Decimal numbers, NaN and the two infinities. [Num m d] is the
    number m / 10^d. *)
Inductive F64 : Type :=
| Num (mantissa : Z) (decimals : nat)
| NaN
| Inf (negative : bool).

Definition digit (c : ascii) : option Z :=
  let n := nat_of_ascii c in
  if (48 <=? n)%nat && (n <=? 57)%nat then Some (Z.of_nat (n - 48)) else None.

(** Digits with at most one point; [seen] counts the digits read. *)
Fixpoint parse_digits (s : string) (acc : Z) (seen : nat) (dot : bool) (decimals : nat)
  : option (Z * nat) :=
  match s with
  | EmptyString => if (0 <? seen)%nat then Some (acc, decimals) else None
  | String c s' =>
      if Ascii.eqb c "." then
        if dot then None else parse_digits s' acc seen true decimals
      else
        match digit c with
        | Some d =>
            parse_digits s' (10 * acc + d)%Z (S seen) dot
                         (if dot then S decimals else decimals)
        | None => None
        end
  end.

Definition Quote (s : string) : string := dq ++ s ++ dq.

Definition ParseFloat (s : string) (bitSize : nat) : result F64 :=
  let syntax := Err ("strconv.ParseFloat: parsing " ++ Quote s ++ ": invalid syntax") in
  if s =? "NaN" then Ok NaN
  else if (s =? "+Inf") || (s =? "Inf") then Ok (Inf false)
  else if s =? "-Inf" then Ok (Inf true)
  else
    match s with
    | String "-" s' =>
        match parse_digits s' 0 0 false 0 with
        | Some (m, d) => Ok (Num (- m) d)
        | None => syntax
        end
    | String "+" s' =>
        match parse_digits s' 0 0 false 0 with
        | Some (m, d) => Ok (Num m d)
        | None => syntax
        end
    | _ =>
        match parse_digits s 0 0 false 0 with
        | Some (m, d) => Ok (Num m d)
        | None => syntax
        end
    end.

(** Colours as red, green and blue. *)
Definition RGB : Type := (Z * Z * Z)%type.

(** The eight colours of the Dark2 palette. *)
Definition Dark2 : list RGB :=
  [ (27, 158, 119); (217, 95, 2); (117, 112, 179); (231, 41, 138);
    (102, 166, 30); (230, 171, 2); (166, 118, 29); (102, 102, 102) ]%Z.

Definition GetPalette (t : PaletteType) (name : string) (n : nat) : result (list RGB) :=
  if (name =? "Dark2") && (3 <=? n)%nat && (n <=? 8)%nat then Ok (firstn n Dark2)
  else Err ("palette " ++ name ++ " not found").

Definition MakeFont (name : string) (size : Length) : result (string * Length) :=
  if (name =? "Helvetica") || (name =? "Helvetica-Bold") then Ok (name, size)
  else Err ("vg: unknown font name " ++ name).

#[global] Instance types : Types := {
  float64 := F64;
  Metric := string;
  SampleValue := string;
  Time := Z;
  Color := RGB;
  Font := (string * Length)%type;
  Canvas := (string * list Byte.byte)%type;
  GoTime := Z
}.

Definition finite (x : F64) : bool :=
  match x with
  | Num _ _ => true
  | _ => false
  end.

Definition CheckFloats (data : list (@XY types)) : option error :=
  if forallb (fun pt => finite (X pt) && finite (Y pt)) data then None
  else Some "plotter: NaN or infinite data point".

Definition formats : list string := ["eps"; "jpg"; "jpeg"; "pdf"; "png"; "svg"; "tiff"].

(** A canvas remembers its format and the bytes drawn on it. *)
Definition NewFormattedCanvas (w h : Length) (format : string)
  : result (string * list Byte.byte) :=
  if existsb (String.eqb format) formats then Ok (format, [])
  else Err ("unsupported format: " ++ format).

(** Drawing leaves the title and one byte per plotter on the canvas. *)
Definition Draw (p : @PlotT types) (c : string * list Byte.byte)
           (crop : Length * Length * Length * Length) : string * list Byte.byte :=
  (fst c,
   (snd c ++ list_byte_of_string (Title_Text p)
          ++ map (fun _ => Byte.x2f) (plotters p))%list).

Definition WriteTo (c : string * list Byte.byte) : result (list Byte.byte) :=
  Ok (list_byte_of_string (fst c) ++ snd c)%list.

Definition point (ms : Z) (v : string) : @SamplePair types :=
  {| Timestamp := ms; Value := v |}.

(** The two series of the end-to-end scenario. *)
Definition series_a1 : @SampleStream types :=
  {| SMetric := "{a=" ++ dq ++ "1" ++ dq ++ "}";
     Values := [point 0 "1.0"; point 60000 "2.0"; point 120000 "1.5"] |}.

Definition series_a2 : @SampleStream types :=
  {| SMetric := "{a=" ++ dq ++ "2" ++ dq ++ "}";
     Values := [point 0 "0.5"; point 60000 "0.7"; point 120000 "0.6"] |}.

(** A server that answers one address only, a chat service that
    accepts one token only, and a file system where the root cannot
    be created as a file. *)
Definition Metrics (url query : string) (time range step : Z) : result (@Matrix types) :=
  if url =? "http://localhost:9090" then Ok [series_a1; series_a2]
  else Err ("connection refused: " ++ url).

Definition Slack (token channel title : string) (data : list Byte.byte) : result unit :=
  if token =? "xoxp-1" then Ok tt else Err "invalid_auth".

Definition os_Create (path : string) : result unit :=
  if path =? "/" then Err "open /: is a directory" else Ok tt.

#[global] Instance externals : Externals types := {
  float64_of_int64 := fun n => Num n 0;
  ParseFloat := Sample.ParseFloat;
  Quote := Sample.Quote;
  Metric_String := fun m => m;
  SampleValue_String := fun v => v;
  Time_Unix := fun ms => Z.quot ms 1000;
  GetPalette := Sample.GetPalette;
  MakeFont := Sample.MakeFont;
  DefaultFont := Ok ("Times-Roman", Points 12);
  DefaultLineStyle_Width := Points 1;
  DefaultLineStyle_Color := (0, 0, 0)%Z;
  CheckFloats := Sample.CheckFloats;
  NewFormattedCanvas := Sample.NewFormattedCanvas;
  Draw := Sample.Draw;
  WriteTo := Sample.WriteTo;
  Metrics := Sample.Metrics;
  Slack := Sample.Slack;
  os_Create := Sample.os_Create;
  io_Copy := fun _ _ => Ok tt;
  flag_defaults := "  -url string" ++ nl;
  version := "dev";
  GOOS := "linux";
  GOARCH := "amd64"
}.

(** The matrix of the end-to-end scenario, a matrix of nine series, and
    a series with a value that is no number. *)
Definition scenario : @Matrix types := [series_a1; series_a2].

Definition nine : @Matrix types := repeat series_a1 9.

Definition garbage : @SamplePair types := point 60000 "NaN-ish-garbage".

Definition series_bad : @SampleStream types :=
  {| SMetric := "up"; Values := [point 0 "1.0"; garbage; point 120000 "3"] |}.

(** Command lines: one that is complete, and variations of it. *)
Definition complete : @Main.Flags types :=
  {| Main.silent := false;
     Main.versionFlag := false;
     Main.promServer := "http://localhost:9090";
     Main.query := "up";
     Main.queryTime := 1500000000%Z;
     Main.duration := 3600000000000%Z;
     Main.title := "Prometheus metrics";
     Main.format := "png";
     Main.file := "out.png";
     Main.slackToken := "";
     Main.channel := "";
     Main.arg0 := "promplot" |}.

Definition with_server (f : @Main.Flags types) (url : string) (quiet : bool)
  : @Main.Flags types :=
  {| Main.silent := quiet;
     Main.versionFlag := Main.versionFlag f;
     Main.promServer := url;
     Main.query := Main.query f;
     Main.queryTime := Main.queryTime f;
     Main.duration := Main.duration f;
     Main.title := Main.title f;
     Main.format := Main.format f;
     Main.file := Main.file f;
     Main.slackToken := Main.slackToken f;
     Main.channel := Main.channel f;
     Main.arg0 := Main.arg0 f |}.

(** The version flag alone on the command line. *)
Definition version_only : @Main.Flags types :=
  {| Main.silent := false;
     Main.versionFlag := true;
     Main.promServer := "";
     Main.query := "";
     Main.queryTime := 1500000000%Z;
     Main.duration := 0%Z;
     Main.title := "Prometheus metrics";
     Main.format := "png";
     Main.file := "";
     Main.slackToken := "";
     Main.channel := "";
     Main.arg0 := "promplot" |}.

(** A series with a value that parses and is no number, and a command
    line with a file, a token and no channel. *)
Definition series_nan : @SampleStream types :=
  {| SMetric := "up{job=a}"; Values := [point 0 "1"; point 60000 "NaN"] |}.

Definition no_channel : @Main.Flags types :=
  {| Main.silent := true;
     Main.versionFlag := false;
     Main.promServer := "http://localhost:9090";
     Main.query := "up";
     Main.queryTime := 1500000000%Z;
     Main.duration := 3600000000000%Z;
     Main.title := "T";
     Main.format := "png";
     Main.file := "out.png";
     Main.slackToken := "xoxp-1";
     Main.channel := "";
     Main.arg0 := "promplot" |}.

(** The silent flag with the path that stands for standard output. *)
Definition silent_stdout : @Main.Flags types :=
  {| Main.silent := true;
     Main.versionFlag := false;
     Main.promServer := "http://localhost:9090";
     Main.query := "up";
     Main.queryTime := 1500000000%Z;
     Main.duration := 3600000000000%Z;
     Main.title := "T";
     Main.format := "png";
     Main.file := "-";
     Main.slackToken := "";
     Main.channel := "";
     Main.arg0 := "promplot" |}.

(** The bytes of the two charts these command lines ask for. *)
Definition png_default : list Byte.byte :=
  (list_byte_of_string "pngPrometheus metrics" ++ [Byte.x2f; Byte.x2f])%list.

Definition png_T : list Byte.byte :=
  (list_byte_of_string "pngT" ++ [Byte.x2f; Byte.x2f])%list.

End Sample.

(** * The label extraction as the specification words it *)

(** The text of [s] before the first [c], when [c] occurs. *)
Fixpoint before (c : ascii) (s : string) : option string :=
  match s with
  | EmptyString => None
  | String a s' =>
      if Ascii.eqb a c then Some ""
      else option_map (String a) (before c s')
  end.

(** The text of [s] behind the first [c], when [c] occurs. *)
Fixpoint behind (c : ascii) (s : string) : option string :=
  match s with
  | EmptyString => None
  | String a s' => if Ascii.eqb a c then Some s' else behind c s'
  end.

(** From the first opening brace to the next closing brace after it. *)
Definition firstBraces_spec (s : string) : option string :=
  match behind lbrace s with
  | Some t => before rbrace t
  | None => None
  end.

(** The text of [s] before the last [c], when [c] occurs. *)
Fixpoint beforeLast (c : ascii) (s : string) : option string :=
  match s with
  | EmptyString => None
  | String a s' =>
      match beforeLast c s' with
      | Some t => Some (String a t)
      | None => if Ascii.eqb a c then Some "" else None
      end
  end.

(** From the first opening brace to the last closing brace after it. *)
Definition lastBraces (s : string) : option string :=
  match behind lbrace s with
  | Some t => beforeLast rbrace t
  | None => None
  end.

(** A continuation that starts with a literal closing brace. *)
Definition wants_rbrace (k : cont) : Prop :=
  (forall cs, k "" cs = None) /\
  (forall c s cs, Ascii.eqb c rbrace = false -> k (String c s) cs = None).

(** The legend text the loop takes from a label string: group 1 of the
    match, when there is a match. *)
Definition labelOf (s : string) : option string :=
  match FindStringSubmatch labelText s with
  | Some m => nth_error m 1
  | None => None
  end.

(** The label string of the specification's example, and its legend
    text. *)
Definition example_label : string :=
  "metric_name{job=" ++ dq ++ "x" ++ dq ++ ",instance=" ++ dq ++ "y" ++ dq ++ "}".

Definition example_legend : string :=
  "job=" ++ dq ++ "x" ++ dq ++ ",instance=" ++ dq ++ "y" ++ dq.

(** * Vocabulary for the properties of the composition *)

Section Vocabulary.

Context {T : Types} {E : Externals T}.

(** [pt] is the point of the sample pair [v]. *)
Definition is_point (v : SamplePair) (pt : XY) : Prop :=
  X pt = float64_of_int64 (Time_Unix (Timestamp v)) /\
  ParseFloat (SampleValue_String (Value v)) 64 = Ok (Y pt).

(** [l] is the line of the series [sample] met at index [s]. *)
Definition is_line (colors : list Color) (s : nat) (sample : SampleStream)
           (l : Line) : Prop :=
  Forall2 is_point (Values sample) (XYs l) /\
  LineStyle_Width l = Points 1 /\
  nth_error colors (s mod paletteSize) = Some (LineStyle_Color l).

(** [ls] are the lines of the series [rest], met from index [s] on. *)
Fixpoint lines_at (colors : list Color) (s : nat) (rest : Matrix)
         (ls : list Line) : Prop :=
  match rest, ls with
  | [], [] => True
  | sample :: rest', l :: ls' =>
      is_line colors s sample l /\ lines_at colors (S s) rest' ls'
  | _, _ => False
  end.

(** The legend entry the loop adds for one series and its line: none
    for a single series, none when the label does not match. *)
Definition legend_entry (re : Regexp) (n : nat) (sample : SampleStream) (l : Line)
  : list (string * Line) :=
  if Nat.ltb 1 n then
    match FindStringSubmatch re (Metric_String (SMetric sample)) with
    | Some m =>
        match nth_error m 1 with
        | Some name => [(name, l)]
        | None => []
        end
    | None => []
    end
  else [].

Fixpoint legend_for (re : Regexp) (n : nat) (rest : Matrix) (ls : list Line)
  : list (string * Line) :=
  match rest, ls with
  | sample :: rest', l :: ls' =>
      (legend_entry re n sample l ++ legend_for re n rest' ls')%list
  | _, _ => []
  end.

End Vocabulary.

(** * Vocabulary for the properties of a run *)

Section RunVocabulary.

Context {T : Types} {E : Externals T}.

Import Main.

(** The number of calls entered in a trace. *)
Fixpoint calls (tr : list event) : nat :=
  match tr with
  | [] => 0
  | Call _ _ :: tr' => S (calls tr')
  | Print _ _ :: tr' => calls tr'
  end.

(** What a trace and its outcome are checked for: behind a call that
    returned an error comes the message of [fatal] and nothing else, and
    the process leaves with status 1; with [quiet] set, no call comes
    behind a text on the error stream. *)
Fixpoint ends_well (quiet : bool) (tr : list event) (o : outcome unit) : Prop :=
  match tr with
  | [] => True
  | Call _ (Some e) :: tr' =>
      tr' = [Print Stderr ("msg: " ++ e ++ nl)] /\ o = Exit 1
  | Call _ None :: tr' => ends_well quiet tr' o
  | Print Stdout _ :: tr' => ends_well quiet tr' o
  | Print Stderr _ :: tr' => (quiet = true -> calls tr' = 0) /\ ends_well quiet tr' o
  end.

End RunVocabulary.

(** * The matrix as a slice of pointers *)

Section Pointers.

Context {T : Types} {E : Externals T}.

(** model.Matrix is a slice of pointers to sample streams: an entry is
    nil ([None]) or points to a stream. *)
Definition MatrixPtr : Type := list (option SampleStream).

(** The outer loop of [Plot] over such a slice. A turn of the loop for
    an entry that points to [sample] is the turn of [series] for
    [sample], at the same index and with the same len(metrics); for a
    nil entry the first statement of the turn reads sample.Values
    through the nil pointer and panics. *)
Fixpoint seriesPtr (re : Regexp) (n : nat) (colors : list Color) (s : nat)
         (rest : MatrixPtr) (p : PlotT) : result PlotT :=
  match rest with
  | [] => Ok p
  | None :: _ => Panic
  | Some sample :: rest' =>
      match series re n colors s [sample] p with
      | Ok p1 => seriesPtr re n colors (S s) rest' p1
      | Err e => Err e
      | Panic => Panic
      end
  end.

(** [Plot] up to the end of the loop, for a slice of pointers. *)
Definition composePtr (metrics : MatrixPtr) (title : string) : result PlotT :=
  p <- plot_New orReturn Errorf "failed creating new plot: " ;;
  titleFont <- MakeFont "Helvetica-Bold" Centimeter
    orReturn Errorf "failed creating font: " ;;
  textFont <- MakeFont "Helvetica" (times 3 Millimeter)
    orReturn Errorf "failed creating font: " ;;
  let p := configure p title titleFont textFont in
  colors <- GetPalette TypeAny "Dark2" paletteSize
    orReturn Errorf "cannot get color palette: " ;;
  seriesPtr labelText (length metrics) colors 0 metrics p.

End Pointers.

(** * Vocabulary for further properties *)

(** The texts with which [Plot] starts its errors. *)
Definition Plot_error_texts : list string :=
  [ "failed creating new plot: ";
    "failed creating font: ";
    "cannot get color palette: ";
    "sample value not float: ";
    "failed creating line: ";
    "failed creating image canvas: ";
    "failed saving plot: " ].

(** [e] starts with one of the texts of [texts]. *)
Definition starts_with_one_of (texts : list string) (e : error) : Prop :=
  exists text rest, In text texts /\ e = text ++ rest.

Section MoreVocabulary.

Context {T : Types} {E : Externals T}.

Import Main.

(** The settings of a plot: everything but its plotters and its legend
    entries. *)
Definition same_settings (p q : PlotT) : Prop :=
  Title_Text p = Title_Text q /\
  Title_Font p = Title_Font q /\
  Title_Padding p = Title_Padding q /\
  X_Tick_Marker p = X_Tick_Marker q /\
  X_Tick_Label_Font p = X_Tick_Label_Font q /\
  Y_Tick_Label_Font p = Y_Tick_Label_Font q /\
  Legend_Font p = Legend_Font q /\
  Legend_Top p = Legend_Top q /\
  Legend_YOffs p = Legend_YOffs q.

(** The legend names a matrix of two or more series gives: the group
    of each label that matches, in order. *)
Definition legend_names (metrics : Matrix) : list string :=
  flat_map (fun sample =>
              match labelOf (Metric_String (SMetric sample)) with
              | Some name => [name]
              | None => []
              end) metrics.

(** The place of a call in the pipeline. *)
Definition rank (c : callee) : nat :=
  match c with
  | CallMetrics _ _ _ _ _ => 0
  | CallPlot _ _ _ => 1
  | CallCreate _ => 2
  | CallCopy _ _ => 3
  | CallSlack _ _ _ _ => 4
  end.

(** The places of the calls of a trace, in order. *)
Fixpoint ranks (tr : list event) : list nat :=
  match tr with
  | [] => []
  | Call c _ :: tr' => rank c :: ranks tr'
  | Print _ _ :: tr' => ranks tr'
  end.

(** Every number is above [lo] and the numbers grow strictly. *)
Fixpoint ascending_from (lo : nat) (l : list nat) : Prop :=
  match l with
  | [] => True
  | x :: l' => lo < x /\ ascending_from x l'
  end.

Definition ascending (l : list nat) : Prop :=
  match l with
  | [] => True
  | x :: l' => ascending_from x l'
  end.

(** Where the copy of a run writes to. *)
Definition copy_target (f : Flags) : Dest :=
  if file f =? "-" then Stdout_file else Created (file f).

End MoreVocabulary.

(** * Properties of the matcher *)

Lemma length_app (a b : string) :
  String.length (a ++ b) = String.length a + String.length b.
Proof. induction a as [|c a IH]; simpl; [reflexivity | now rewrite IH]. Qed.

Lemma substring_app (a b : string) : substring 0 (String.length a) (a ++ b) = a.
Proof.
  induction a as [|c a IH]; simpl.
  - now destruct b.
  - now rewrite IH.
Qed.

Lemma consumed_app (a b : string) : consumed (a ++ b) b = a.
Proof.
  unfold consumed. rewrite length_app.
  replace (String.length a + String.length b - String.length b)
    with (String.length a) by lia.
  apply substring_app.
Qed.

Lemma app_assoc_s (a b c : string) : (a ++ b) ++ c = a ++ (b ++ c).
Proof. induction a as [|x a IH]; simpl; [reflexivity | now rewrite IH]. Qed.

Lemma app_nil_r_s (a : string) : a ++ "" = a.
Proof. induction a as [|x a IH]; simpl; [reflexivity | now rewrite IH]. Qed.

Lemma occurs_app (c : ascii) (a b : string) :
  occurs c (a ++ b) = occurs c a || occurs c b.
Proof.
  induction a as [|x a IH]; simpl; [reflexivity|].
  now rewrite IH, orb_assoc.
Qed.

Lemma wants_rbrace_exec (k : string -> cont) :
  wants_rbrace (fun s cs => exec (OpChar (Literal rbrace)) s cs (k s)).
Proof.
  split; [reflexivity|].
  intros c s cs Hc. cbn [exec accepts]. now rewrite Hc.
Qed.

(** The star gives nothing back to a closing brace that is not there. *)
Lemma greedy_no_rbrace (post : string) (cs : caps) (k : cont) :
  wants_rbrace k ->
  occurs rbrace post = false ->
  greedy AnyCharNotNL post cs k = None.
Proof.
  intros [Hnil Hcons].
  induction post as [|c post IH]; cbn [greedy occurs accepts]; intros H;
    [apply Hnil|].
  apply orb_false_elim in H as [Hc Hpost].
  rewrite (IH Hpost), (Hcons _ _ _ Hc).
  now destruct (negb (Ascii.eqb c LF)).
Qed.

(** A success further to the right wins over every shorter star. *)
Lemma greedy_prefers_longer (mid rest : string) (cs : caps) (k : cont) (m : caps) :
  occurs LF mid = false ->
  greedy AnyCharNotNL rest cs k = Some m ->
  greedy AnyCharNotNL (mid ++ rest) cs k = Some m.
Proof.
  intros Hmid Hrest.
  induction mid as [|c mid IH]; cbn [append greedy occurs accepts] in *;
    [assumption|].
  apply orb_false_elim in Hmid as [Hc Hmid].
  now rewrite Hc, (IH Hmid).
Qed.

(** The match that starts on an opening brace runs to the last closing
    brace of the line. *)
Lemma matchAt_labelText (mid post : string) :
  occurs LF mid = false ->
  occurs rbrace post = false ->
  matchAt labelText (String lbrace (mid ++ String rbrace post))
  = Some [String lbrace (mid ++ String rbrace ""); mid].
Proof.
  intros Hmid Hpost.
  unfold matchAt, labelText. cbn [exec NumSubexp plus repeat].
  change (accepts (Literal lbrace) lbrace) with true. cbv iota.
  erewrite greedy_prefers_longer; [reflexivity | assumption |].
  cbn [greedy].
  change (accepts AnyCharNotNL rbrace) with true. cbv iota.
  rewrite greedy_no_rbrace; [| apply (wants_rbrace_exec _) | assumption].
  cbn [exec]. change (accepts (Literal rbrace) rbrace) with true. cbv iota.
  rewrite (consumed_app mid (String rbrace post)).
  change (String lbrace (mid ++ String rbrace post))
    with (String lbrace (mid ++ (String rbrace "" ++ post))).
  rewrite <- app_assoc_s.
  change (String lbrace ((mid ++ String rbrace "") ++ post))
    with (String lbrace (mid ++ String rbrace "") ++ post).
  now rewrite consumed_app.
Qed.

(** No match starts on a byte that is not an opening brace. *)
Lemma matchAt_labelText_other (c : ascii) (s : string) :
  Ascii.eqb c lbrace = false -> matchAt labelText (String c s) = None.
Proof.
  intros Hc. unfold lbrace in Hc.
  unfold matchAt, labelText. cbn [exec accepts]. now rewrite Hc.
Qed.

Lemma matchAt_labelText_empty : matchAt labelText "" = None.
Proof. reflexivity. Qed.

(** No match starts where no closing brace follows. *)
Lemma matchAt_labelText_unclosed (s : string) :
  occurs rbrace s = false -> matchAt labelText s = None.
Proof.
  intros Hs. destruct s as [|c s]; [reflexivity|].
  cbn [occurs] in Hs. apply orb_false_elim in Hs as [_ Hs].
  unfold matchAt, labelText. cbn [exec NumSubexp plus repeat].
  destruct (accepts _ c); [|reflexivity].
  apply greedy_no_rbrace; [apply (wants_rbrace_exec _) | assumption].
Qed.

(** The search passes over a prefix without an opening brace. *)
Lemma Find_labelText_skip (pre s : string) :
  occurs lbrace pre = false ->
  FindStringSubmatch labelText (pre ++ s) = FindStringSubmatch labelText s.
Proof.
  induction pre as [|c pre IH]; intros Hpre; [reflexivity|].
  cbn [occurs] in Hpre. apply orb_false_elim in Hpre as [Hc Hpre].
  cbn [append FindStringSubmatch].
  rewrite (matchAt_labelText_other _ _ Hc). now apply IH.
Qed.

Lemma Find_labelText_greedy (pre mid post : string) :
  occurs lbrace pre = false ->
  occurs LF mid = false ->
  occurs rbrace post = false ->
  FindStringSubmatch labelText (pre ++ String lbrace (mid ++ String rbrace post))
  = Some [String lbrace (mid ++ String rbrace ""); mid].
Proof.
  intros Hpre Hmid Hpost.
  rewrite (Find_labelText_skip _ _ Hpre).
  cbn [FindStringSubmatch].
  now rewrite (matchAt_labelText _ _ Hmid Hpost).
Qed.

Lemma Find_labelText_no_lbrace (s : string) :
  occurs lbrace s = false -> FindStringSubmatch labelText s = None.
Proof.
  induction s as [|c s IH]; intros Hs; [reflexivity|].
  cbn [occurs] in Hs. apply orb_false_elim in Hs as [Hc Hs].
  cbn [FindStringSubmatch].
  rewrite (matchAt_labelText_other _ _ Hc). now apply IH.
Qed.

Lemma Find_labelText_no_rbrace (s : string) :
  occurs rbrace s = false -> FindStringSubmatch labelText s = None.
Proof.
  induction s as [|c s IH]; intros Hs; [reflexivity|].
  cbn [FindStringSubmatch].
  rewrite (matchAt_labelText_unclosed _ Hs).
  cbn [occurs] in Hs. apply orb_false_elim in Hs as [_ Hs]. now apply IH.
Qed.

Lemma behind_some (c : ascii) (s t : string) :
  behind c s = Some t ->
  exists pre, s = pre ++ String c t /\ occurs c pre = false.
Proof.
  induction s as [|a s IH]; cbn [behind]; [discriminate|].
  destruct (Ascii.eqb a c) eqn:Ha.
  - intros [= ->]. apply Ascii.eqb_eq in Ha as ->. now exists "".
  - intros H. destruct (IH H) as (pre & -> & Hpre).
    exists (String a pre). cbn [append occurs]. now rewrite Ha, Hpre.
Qed.

Lemma behind_none (c : ascii) (s : string) :
  behind c s = None -> occurs c s = false.
Proof.
  induction s as [|a s IH]; cbn [behind occurs]; [reflexivity|].
  destruct (Ascii.eqb a c); [discriminate | exact IH].
Qed.

Lemma beforeLast_some (c : ascii) (s mid : string) :
  beforeLast c s = Some mid ->
  exists post, s = mid ++ String c post /\ occurs c post = false.
Proof.
  revert mid. induction s as [|a s IH]; cbn [beforeLast]; [discriminate|].
  intros mid H. destruct (beforeLast c s) as [t|] eqn:Ht.
  - injection H as <-. destruct (IH t eq_refl) as (post & -> & Hpost).
    now exists post.
  - destruct (Ascii.eqb a c) eqn:Ha; [|discriminate].
    injection H as <-. apply Ascii.eqb_eq in Ha as ->.
    exists s. split; [reflexivity|].
    clear IH. induction s as [|b s IHs]; [reflexivity|].
    cbn [beforeLast occurs] in *.
    destruct (beforeLast c s); [discriminate|].
    destruct (Ascii.eqb b c); [discriminate | now apply IHs].
Qed.

Lemma beforeLast_none (c : ascii) (s : string) :
  beforeLast c s = None -> occurs c s = false.
Proof.
  induction s as [|a s IH]; cbn [beforeLast occurs]; [reflexivity|].
  destruct (beforeLast c s); [discriminate|].
  destruct (Ascii.eqb a c); [discriminate | now intros _; apply IH].
Qed.

(** On a string without line feed the legend text is what lies between
    the first opening brace and the last closing brace after it. *)
Lemma labelOf_lastBraces (s : string) :
  occurs LF s = false -> labelOf s = lastBraces s.
Proof.
  intros Hs. unfold labelOf, lastBraces.
  destruct (behind lbrace s) as [t|] eqn:Ht.
  - apply behind_some in Ht as (pre & -> & Hpre).
    destruct (beforeLast rbrace t) as [mid|] eqn:Hmid.
    + apply beforeLast_some in Hmid as (post & -> & Hpost).
      rewrite (Find_labelText_greedy pre mid post); [reflexivity | exact Hpre | | exact Hpost].
      rewrite occurs_app in Hs. apply orb_false_elim in Hs as [_ Hs].
      cbn [occurs] in Hs. apply orb_false_elim in Hs as [_ Hs].
      rewrite occurs_app in Hs. now apply orb_false_elim in Hs as [Hs _].
    + apply beforeLast_none in Hmid.
      rewrite (Find_labelText_skip _ _ Hpre), Find_labelText_no_rbrace;
        [reflexivity|].
      cbn [occurs]. now rewrite Hmid.
  - apply behind_none in Ht. now rewrite Find_labelText_no_lbrace.
Qed.

(** What the star returns, its continuation returned. *)
Lemma greedy_some (a : Atom) (s : string) (cs : caps) (k : cont) (m : caps) :
  greedy a s cs k = Some m -> exists s', k s' cs = Some m.
Proof.
  induction s as [|c s IH]; cbn [greedy]; intros H; [now exists ""|].
  destruct (accepts a c); [|now exists (String c s)].
  destruct (greedy a s cs k) as [m'|] eqn:Hm.
  - injection H as <-. now apply IH.
  - now exists (String c s).
Qed.

(** A match of [labelText] has the whole match and one group. *)
Lemma matchAt_labelText_two (s : string) (m : caps) :
  matchAt labelText s = Some m -> exists whole name, m = [whole; name].
Proof.
  unfold matchAt, labelText. cbn [exec NumSubexp plus repeat]. intros H.
  destruct s as [|c s]; [discriminate|].
  destruct (accepts _ c); [|discriminate].
  apply greedy_some in H as ([|c' s'] & H); [discriminate|].
  destruct (accepts _ c'); [|discriminate].
  injection H as <-. cbn [set_cap]. eauto.
Qed.

Lemma Find_labelText_two (s : string) (m : list string) :
  FindStringSubmatch labelText s = Some m -> exists whole name, m = [whole; name].
Proof.
  induction s as [|c s IH]; cbn [FindStringSubmatch]; intros H.
  - destruct (matchAt labelText "") eqn:Hm; [|discriminate].
    injection H as <-. now apply matchAt_labelText_two in Hm.
  - destruct (matchAt labelText (String c s)) eqn:Hm.
    + injection H as <-. now apply matchAt_labelText_two in Hm.
    + now apply IH.
Qed.

(** * Properties of the composition *)

Section PlotFacts.

Context {T : Types} {E : Externals T}.

Lemma points_ok (values : list SamplePair) (data : list XY) :
  points values = Ok data -> Forall2 is_point values data.
Proof.
  revert data. induction values as [|v values IH]; intros data H.
  - injection H as <-. constructor.
  - cbn [points] in H. unfold bindErr in H.
    destruct (ParseFloat (SampleValue_String (Value v)) 64) as [y| |] eqn:Hy;
      try discriminate.
    destruct (points values) as [data'| |]; try discriminate.
    injection H as <-. constructor; [now split | now apply IH].
Qed.

Lemma plotters_Add (p : PlotT) (l : Line) :
  plotters (Add p l) = (plotters p ++ [l])%list.
Proof. reflexivity. Qed.

Lemma series_ok (re : Regexp) (n : nat) (colors : list Color) (rest : Matrix) :
  forall (s : nat) (p p' : PlotT),
    series re n colors s rest p = Ok p' ->
    exists ls,
      plotters p' = (plotters p ++ ls)%list /\
      lines_at colors s rest ls /\
      Legend_entries p' = (Legend_entries p ++ legend_for re n rest ls)%list.
Proof.
  induction rest as [|sample rest IH]; intros s p p' H.
  - injection H as <-. exists []. now rewrite !app_nil_r.
  - cbn [series] in H. unfold bindErr, NewLine in H.
    destruct (points (Values sample)) as [data| |] eqn:Hdata; try discriminate.
    destruct (CheckFloats data); try discriminate.
    destruct (nth_error colors (s mod paletteSize)) as [c|] eqn:Hc;
      try discriminate.
    assert (Hline : is_line colors s sample
                      (styled {| XYs := data;
                                 LineStyle_Width := DefaultLineStyle_Width;
                                 LineStyle_Color := DefaultLineStyle_Color |}
                              (Points 1) c)).
    { repeat split; [now apply points_ok | exact Hc]. }
    set (l := styled _ _ c) in *.
    assert (Hstep : forall q,
              plotters q = (plotters p ++ [l])%list ->
              Legend_entries q = (Legend_entries p ++ legend_entry re n sample l)%list ->
              series re n colors (S s) rest q = Ok p' ->
              exists ls,
                plotters p' = (plotters p ++ ls)%list /\
                lines_at colors s (sample :: rest) ls /\
                Legend_entries p'
                = (Legend_entries p ++ legend_for re n (sample :: rest) ls)%list).
    { intros q Hq Hleg Hrest. apply IH in Hrest as (ls & Hp' & Hls & Hl').
      exists (l :: ls). split; [|split; [now split|]].
      - now rewrite Hp', Hq, <- app_assoc.
      - cbn [legend_for]. now rewrite Hl', Hleg, <- app_assoc. }
    unfold legend_entry in Hstep.
    destruct (Nat.ltb 1 n).
    + destruct (FindStringSubmatch re _) as [m|].
      * destruct (nth_error m 1); try discriminate.
        revert H. now apply Hstep.
      * revert H. apply Hstep; [reflexivity|]. cbn [Add Legend_entries].
        now rewrite app_nil_r.
    + revert H. apply Hstep; [reflexivity|]. cbn [Add Legend_entries].
      now rewrite app_nil_r.
Qed.

Lemma lines_at_length (colors : list Color) (rest : Matrix) :
  forall (s : nat) (ls : list Line),
    lines_at colors s rest ls -> length ls = length rest.
Proof.
  induction rest as [|sample rest IH]; intros s [|l ls] H;
    cbn [lines_at] in H; try contradiction; [reflexivity|].
  destruct H as [_ H]. cbn [length]. f_equal. now apply (IH (S s)).
Qed.

Lemma lines_at_nth (colors : list Color) (rest : Matrix) :
  forall (s : nat) (ls : list Line) (i : nat) (sample : SampleStream),
    lines_at colors s rest ls ->
    nth_error rest i = Some sample ->
    exists l, nth_error ls i = Some l /\ is_line colors (s + i) sample l.
Proof.
  induction rest as [|x rest IH]; intros s [|l ls] i sample H Hi;
    cbn [lines_at] in H; try contradiction.
  - now destruct i.
  - destruct H as [Hl H]. destruct i as [|i]; cbn [nth_error] in *.
    + injection Hi as <-. exists l. now rewrite Nat.add_0_r.
    + rewrite Nat.add_succ_r. now apply (IH (S s)).
Qed.

Lemma lines_at_nth_line (colors : list Color) (rest : Matrix) :
  forall (s : nat) (ls : list Line) (i : nat) (l : Line),
    lines_at colors s rest ls ->
    nth_error ls i = Some l ->
    exists sample, nth_error rest i = Some sample /\
                   is_line colors (s + i) sample l.
Proof.
  induction rest as [|x rest IH]; intros s [|l' ls] i l H Hi;
    cbn [lines_at] in H; try contradiction.
  - now destruct i.
  - destruct H as [Hl H]. destruct i as [|i]; cbn [nth_error] in *.
    + injection Hi as <-. exists x. now rewrite Nat.add_0_r.
    + rewrite Nat.add_succ_r. now apply (IH (S s) ls).
Qed.

(** A composed chart holds the lines of the series, met from index 0,
    with the colours of the palette the program asks for. *)
Lemma composeWith_ok (re : Regexp) (metrics : Matrix) (title : string) (p : PlotT) :
  composeWith re metrics title = Ok p ->
  exists colors,
    GetPalette TypeAny "Dark2" paletteSize = Ok colors /\
    lines_at colors 0 metrics (plotters p) /\
    Legend_entries p = legend_for re (length metrics) metrics (plotters p).
Proof.
  unfold composeWith, plot_New, bindErr. intros H.
  destruct DefaultFont as [f0| |]; try discriminate.
  destruct (MakeFont "Helvetica-Bold" Centimeter) as [titleFont| |];
    try discriminate.
  destruct (MakeFont "Helvetica" (times 3 Millimeter)) as [textFont| |];
    try discriminate.
  destruct (GetPalette TypeAny "Dark2" paletteSize) as [colors| |];
    try discriminate.
exists colors. split; [reflexivity|].
apply series_ok in H as (ls & Hp & Hls & Hleg).
cbn [configure plotters Legend_entries app] in Hp, Hleg. now rewrite Hp, Hleg.
Qed.

(** The loop over a matrix in two parts. *)
Lemma series_app (re : Regexp) (n : nat) (colors : list Color) (pre rest : Matrix) :
  forall (s : nat) (p : PlotT),
    series re n colors s (pre ++ rest)%list p =
    match series re n colors s pre p with
    | Ok p1 => series re n colors (s + length pre) rest p1
    | Err e => Err e
    | Panic => Panic
    end.
Proof.
  induction pre as [|sample pre IH]; intros s p.
  - cbn [app series length]. now rewrite Nat.add_0_r.
  - cbn [app series length]. rewrite Nat.add_succ_r. unfold bindErr.
    destruct (points (Values sample)); try reflexivity.
    destruct (NewLine a); try reflexivity.
    destruct (nth_error colors (s mod paletteSize)); try reflexivity.
    destruct (Nat.ltb 1 n); [|apply (IH (S s))].
    destruct (FindStringSubmatch re _); [|apply (IH (S s))].
    destruct (nth_error l 1); [apply (IH (S s)) | reflexivity].
Qed.

(** With [labelText] the loop succeeds or not whatever the number of
    series and the plot it starts from. *)
Lemma series_labelText_any (colors : list Color) (rest : Matrix) :
  forall (n n' s : nat) (p p' p1 : PlotT),
    series labelText n colors s rest p = Ok p1 ->
    exists p1', series labelText n' colors s rest p' = Ok p1'.
Proof.
  induction rest as [|sample rest IH]; intros n n' s p p' p1 H.
  - now exists p'.
  - cbn [series] in *. unfold bindErr in *.
    destruct (points (Values sample)); try discriminate.
    destruct (NewLine a); try discriminate.
    destruct (nth_error colors (s mod paletteSize)); try discriminate.
    assert (Hany : forall q q', series labelText n colors (S s) rest q = Ok p1 ->
              exists p1', series labelText n' colors (S s) rest q' = Ok p1')
      by (intros q q'; apply IH).
    assert (Hgo : exists q, series labelText n colors (S s) rest q = Ok p1).
    { destruct (Nat.ltb 1 n); [|eauto].
      destruct (FindStringSubmatch labelText _); [|eauto].
      destruct (nth_error l 1); [eauto | discriminate]. }
    destruct Hgo as [q Hq].
    destruct (Nat.ltb 1 n'); [|now apply (Hany q)].
    destruct (FindStringSubmatch labelText _) as [m|] eqn:Hm; [|now apply (Hany q)].
    apply Find_labelText_two in Hm as (whole & name & ->). cbn [nth_error].
    now apply (Hany q).
Qed.

(** The loop returns a plot when the points of every series are read
    and pass the check, and the palette has its eight colours. *)
Lemma series_succeeds (colors : list Color) (rest : Matrix) :
  paletteSize <= length colors ->
  Forall (fun sample => exists data,
              points (Values sample) = Ok data /\ CheckFloats data = None) rest ->
  forall (n s : nat) (p : PlotT),
    exists p', series labelText n colors s rest p = Ok p'.
Proof.
  intros Hlen. induction 1 as [|sample rest (data & Hdata & Hcheck) _ IH];
    intros n s p.
  - now exists p.
  - cbn [series]. unfold bindErr, NewLine. rewrite Hdata, Hcheck.
    destruct (nth_error colors (s mod paletteSize)) as [c|] eqn:Hc.
    + destruct (Nat.ltb 1 n); [|apply IH].
      destruct (FindStringSubmatch labelText _) as [m|] eqn:Hm; [|apply IH].
      apply Find_labelText_two in Hm as (whole & name & ->). apply IH.
    + apply nth_error_None in Hc.
      pose proof (Nat.mod_upper_bound s paletteSize) as Hlt.
      unfold paletteSize in *. lia.
Qed.

(** The first value that does not parse ends the inner loop. *)
Lemma points_first_error (vs vs' : list SamplePair) (v : SamplePair)
      (data : list XY) (e : error) :
  points vs = Ok data ->
  ParseFloat (SampleValue_String (Value v)) 64 = Err e ->
  points (vs ++ v :: vs')%list
  = Err (Errorf "sample value not float: " (SampleValue_String (Value v))).
Proof.
  revert data. induction vs as [|x vs IH]; intros data Hb Hv.
  - cbn [app points]. unfold bindErr. now rewrite Hv.
  - cbn [app points] in *. unfold bindErr in *.
    destruct (ParseFloat (SampleValue_String (Value x)) 64); try discriminate.
    destruct (points vs) as [d| |]; try discriminate.
    now rewrite (IH d eq_refl Hv).
Qed.

Lemma Forall2_In_l {A B : Type} (R : A -> B -> Prop) (xs : list A) (ys : list B) (x : A) :
  Forall2 R xs ys -> In x xs -> exists y, R x y.
Proof.
  induction 1 as [|a b xs ys Hab _ IH]; intros Hin; [contradiction|].
  destruct Hin as [<-|Hin]; eauto.
Qed.

(** A chart is composed only when every value of every series parses. *)
Lemma composeWith_parsed (re : Regexp) (metrics : Matrix) (title : string) (p : PlotT)
      (sample : SampleStream) (v : SamplePair) :
  composeWith re metrics title = Ok p ->
  In sample metrics -> In v (Values sample) ->
  exists y, ParseFloat (SampleValue_String (Value v)) 64 = Ok y.
Proof.
  intros Hp Hs Hv.
  apply composeWith_ok in Hp as (colors & _ & Hlines & _).
  apply In_nth_error in Hs as [i Hi].
  destruct (lines_at_nth _ _ _ _ _ _ Hlines Hi) as (l & _ & Hpts & _).
  destruct (Forall2_In_l _ _ _ _ Hpts Hv) as (pt & _ & Hy). eauto.
Qed.

(** No legend entry for fewer than two series. *)
Lemma legend_for_few (re : Regexp) (n : nat) (rest : Matrix) :
  n <= 1 -> forall ls, legend_for re n rest ls = [].
Proof.
  intros Hn. induction rest as [|sample rest IH]; intros [|l ls];
    cbn [legend_for]; try reflexivity.
  rewrite IH. unfold legend_entry.
  now destruct (Nat.ltb_spec 1 n) as [Hlt|_]; [lia|].
Qed.

(** [Plot] returns bytes only for a composed chart. *)
Lemma PlotWith_ok (re : Regexp) (metrics : Matrix) (title format : string)
      (b : list Byte.byte) :
  PlotWith re metrics title format = Ok b ->
  exists p, composeWith re metrics title = Ok p /\ render p format = Ok b.
Proof.
  unfold PlotWith, bindErr. intros H.
  destruct (composeWith re metrics title) as [p| |]; try discriminate. eauto.
Qed.

End PlotFacts.

(** * The chart *)

Section PlotClaims.

Context {T : Types} {E : Externals T}.

(** C1. A composed chart holds exactly one line per series of the
    matrix, in the order of the matrix. The points of a line are those
    of its series, in order: X is the Unix time of the sample converted
    to float64 and Y is the value of the sample as ParseFloat reads it
    with bit size 64. *)
Theorem compose_one_line_per_series (metrics : Matrix) (title : string) (p : PlotT) :
  compose metrics title = Ok p ->
  length (plotters p) = length metrics /\
  forall (s : nat) (sample : SampleStream),
    nth_error metrics s = Some sample ->
    exists l,
      nth_error (plotters p) s = Some l /\
      Forall2 (fun v pt =>
                 X pt = float64_of_int64 (Time_Unix (Timestamp v)) /\
                 ParseFloat (SampleValue_String (Value v)) 64 = Ok (Y pt))
              (Values sample) (XYs l).
Proof.
  intros H. apply composeWith_ok in H as (colors & _ & Hlines & _). split.
  - now apply lines_at_length in Hlines.
  - intros s sample Hs.
    destruct (lines_at_nth _ _ _ _ _ _ Hlines Hs) as (l & Hl & Hpts & _).
    exists l. split; [exact Hl | exact Hpts].
Qed.

(** The composition returns a chart when the fonts and the palette of
    eight colours are there and the points of every series are read and
    pass the check. *)
Lemma compose_succeeds (metrics : Matrix) (title : string)
      (f0 titleFont textFont : Font) (colors : list Color) :
  DefaultFont = Ok f0 ->
  MakeFont "Helvetica-Bold" Centimeter = Ok titleFont ->
  MakeFont "Helvetica" (times 3 Millimeter) = Ok textFont ->
  GetPalette TypeAny "Dark2" 8 = Ok colors ->
  length colors = 8 ->
  Forall (fun sample => exists data,
              points (Values sample) = Ok data /\ CheckFloats data = None) metrics ->
  exists p, compose metrics title = Ok p.
Proof.
  intros H0 H1 H2 H3 Hlen Hall.
  unfold compose, composeWith, plot_New, bindErr.
  rewrite H0, H1, H2. change paletteSize with 8. rewrite H3.
  apply series_succeeds; [|exact Hall].
  unfold paletteSize. now rewrite Hlen.
Qed.

(** C3. Every series of the matrix gets a line, at its own index in
    the chart, and the colour of the line of the series at index i is
    the entry i mod 8 of the palette that GetPalette returned for Dark2
    with 8 colours. So whenever the matrix has series at i and at i + 8,
    the chart has lines at both indices and they have the same colour. *)
Theorem color_by_index_mod_palette (metrics : Matrix) (title : string) (p : PlotT) :
  compose metrics title = Ok p ->
  exists palette,
    GetPalette TypeAny "Dark2" 8 = Ok palette /\
    length (plotters p) = length metrics /\
    (forall (i : nat) (sample : SampleStream),
        nth_error metrics i = Some sample ->
        exists l,
          nth_error (plotters p) i = Some l /\
          nth_error palette (i mod 8) = Some (LineStyle_Color l)) /\
    (forall (i : nat) (l : Line),
        nth_error (plotters p) i = Some l ->
        nth_error palette (i mod 8) = Some (LineStyle_Color l)) /\
    (forall (i : nat) (l l' : Line),
        nth_error (plotters p) i = Some l ->
        nth_error (plotters p) (i + 8) = Some l' ->
        LineStyle_Color l = LineStyle_Color l') /\
    (forall i : nat,
        i + 8 < length metrics ->
        exists l l',
          nth_error (plotters p) i = Some l /\
          nth_error (plotters p) (i + 8) = Some l' /\
          LineStyle_Color l = LineStyle_Color l').
Proof.
  intros H. apply composeWith_ok in H as (colors & Hpal & Hlines & _).
  exists colors. split; [exact Hpal|].
  assert (Hlen : length (plotters p) = length metrics)
    by now apply lines_at_length in Hlines.
  split; [exact Hlen|].
  assert (Hcol : forall i l, nth_error (plotters p) i = Some l ->
                   nth_error colors (i mod 8) = Some (LineStyle_Color l)).
  { intros i l Hl.
    destruct (lines_at_nth_line _ _ _ _ _ _ Hlines Hl) as (sample & _ & _ & _ & Hc).
    exact Hc. }
  assert (Hper : forall i l l', nth_error (plotters p) i = Some l ->
                   nth_error (plotters p) (i + 8) = Some l' ->
                   LineStyle_Color l = LineStyle_Color l').
  { intros i l l' Hl Hl'. apply Hcol in Hl, Hl'.
    replace ((i + 8) mod 8) with (i mod 8) in Hl'.
    - rewrite Hl in Hl'. now injection Hl'.
    - change 8 with (1 * 8) at 2. now rewrite Nat.Div0.mod_add. }
  split; [|split; [exact Hcol | split; [exact Hper|]]].
  - intros i sample Hs.
    destruct (lines_at_nth _ _ _ _ _ _ Hlines Hs) as (l & Hl & _ & _ & Hc).
    exists l. split; [exact Hl | exact Hc].
  - intros i Hi.
    destruct (nth_error (plotters p) i) as [l|] eqn:Hl;
      [|apply nth_error_None in Hl; lia].
    destruct (nth_error (plotters p) (i + 8)) as [l'|] eqn:Hl';
      [|apply nth_error_None in Hl'; lia].
    exists l, l'. repeat split. now apply (Hper i).
Qed.

(** C4. The chart composed from a matrix of one series (or none) has
    an empty legend, whatever the label of the series. For one series
    the pattern of [labelText] plays no part: the composition is the
    same for any other pattern in its place. *)
Theorem single_series_no_legend :
  (forall (metrics : Matrix) (title : string) (p : PlotT),
      length metrics <= 1 ->
      compose metrics title = Ok p ->
      Legend_entries p = []) /\
  (forall (re : Regexp) (sample : SampleStream) (title : string),
      composeWith re [sample] title = compose [sample] title).
Proof.
  split.
  - intros metrics title p Hn H.
    apply composeWith_ok in H as (colors & _ & _ & Hleg).
    rewrite Hleg. now apply legend_for_few.
  - (* with one series the test on len(metrics) fails before the
       pattern is looked at *)
    intros re sample title. unfold compose, composeWith.
    cbn [series length Nat.ltb Nat.leb]. reflexivity.
Qed.

(** C5. When a value of a series does not parse as a float, neither
    the composition nor [Plot] returns a result. When the series before
    it compose and the values before it parse, both return the error
    that names the value. *)
Theorem unparseable_value_aborts (metrics : Matrix) (title format : string)
        (sample : SampleStream) (v : SamplePair) (e : error) :
  In sample metrics ->
  In v (Values sample) ->
  ParseFloat (SampleValue_String (Value v)) 64 = Err e ->
  (forall p, compose metrics title <> Ok p) /\
  (forall b, Plot metrics title format <> Ok b) /\
  (forall (pre post : Matrix) (vs vs' : list SamplePair) (p0 : PlotT) (data : list XY),
      metrics = (pre ++ sample :: post)%list ->
      Values sample = (vs ++ v :: vs')%list ->
      compose pre title = Ok p0 ->
      points vs = Ok data ->
      let err := Errorf "sample value not float: " (SampleValue_String (Value v)) in
      compose metrics title = Err err /\ Plot metrics title format = Err err).
Proof.
  intros Hs Hv He.
  assert (Hno : forall p, compose metrics title <> Ok p).
  { intros p Hp.
    destruct (composeWith_parsed _ _ _ _ _ _ Hp Hs Hv) as [y Hy]. congruence. }
  split; [exact Hno|]. split.
  - intros b Hb. apply PlotWith_ok in Hb as (p & Hp & _). now apply (Hno p).
  - intros pre post vs vs' p0 data -> Hvs Hpre Hdata err.
    assert (Hc : compose (pre ++ sample :: post)%list title = Err err).
    { unfold compose, composeWith, bindErr in *.
      destruct plot_New as [pn| |]; try discriminate.
      destruct (MakeFont "Helvetica-Bold" Centimeter) as [titleFont| |];
        try discriminate.
      destruct (MakeFont "Helvetica" (times 3 Millimeter)) as [textFont| |];
        try discriminate.
      destruct (GetPalette TypeAny "Dark2" paletteSize) as [colors| |];
        try discriminate.
      rewrite series_app.
      destruct (series_labelText_any _ _ _ (length (pre ++ sample :: post)) _ _
                  (configure pn title titleFont textFont) _ Hpre) as [p1 ->].
      cbn [series]. unfold bindErr.
      now rewrite Hvs, (points_first_error _ _ _ _ _ Hdata He). }
    split; [exact Hc|].
    unfold Plot, PlotWith, bindErr. unfold compose in Hc. now rewrite Hc.
Qed.

(** C7. When NewFormattedCanvas returns an error for the format, [Plot]
    returns no bytes; for a matrix that composes, [Plot] returns that
    error behind the words failed creating image canvas. *)
Theorem unsupported_format_fails (metrics : Matrix) (title format : string) (e : error) :
  NewFormattedCanvas (times 24 Centimeter) (times 20 Centimeter) format = Err e ->
  (forall b, Plot metrics title format <> Ok b) /\
  (forall p, compose metrics title = Ok p ->
             Plot metrics title format = Err (Errorf "failed creating image canvas: " e)).
Proof.
  intros Hc. split.
  - intros b Hb. apply PlotWith_ok in Hb as (p & _ & Hr).
    unfold render, bindErr in Hr. now rewrite Hc in Hr.
  - intros p Hp. unfold Plot, PlotWith, bindErr. unfold compose in Hp.
    rewrite Hp. unfold render, bindErr. now rewrite Hc.
Qed.

(** C2, amended. On a label string without line feed the legend text
    is what lies between the first opening brace and the last closing
    brace after it, closing braces in between included: the star of the
    pattern is greedy. More generally the match runs from the first
    opening brace to the last closing brace when no line feed lies
    between the two. The label of the example gives the legend text of
    the example, and a string without an opening brace or without a
    closing brace gives no match. For more than one series the legend
    of a composed chart holds, series by series, the group of the match
    with the line of the series, and nothing for a label that does not
    match. *)
Theorem labelText_first_to_last_brace :
  (forall s : string, occurs LF s = false -> labelOf s = lastBraces s) /\
  (forall pre mid post : string,
      occurs lbrace pre = false ->
      occurs LF mid = false ->
      occurs rbrace post = false ->
      FindStringSubmatch labelText (pre ++ String lbrace (mid ++ String rbrace post))
      = Some [String lbrace (mid ++ String rbrace ""); mid]) /\
  labelOf example_label = Some example_legend /\
  (forall s : string,
      occurs lbrace s = false \/ occurs rbrace s = false ->
      FindStringSubmatch labelText s = None) /\
  (forall (metrics : Matrix) (title : string) (p : PlotT),
      compose metrics title = Ok p ->
      Legend_entries p
      = legend_for labelText (length metrics) metrics (plotters p)).
Proof.
  split; [exact labelOf_lastBraces|].
  split; [exact Find_labelText_greedy|].
  split; [reflexivity|].
  split.
  - intros s [H|H]; [now apply Find_labelText_no_lbrace
                    | now apply Find_labelText_no_rbrace].
  - intros metrics title p H.
    now apply composeWith_ok in H as (colors & _ & _ & Hleg).
Qed.

End PlotClaims.

(** * The run of the program *)

Section RunFacts.

Context {T : Types} {E : Externals T}.

Import Main.

Ltac innermost x :=
  lazymatch x with
  | context [match _ with _ => _ end] => fail
  | _ => idtac
  end.

Ltac split_run :=
  match goal with
  | |- context [match ?x with _ => _ end] => innermost x; destruct x eqn:?
  end.

Lemma run_ends_well (f : Flags) : ends_well (silent f) (fst (run f)) (snd (run f)).
Proof.
  unfold run, main.
  cbv [bind when log checked call emit fatal ret os_Exit panic flag_Usage err_of
       negb].
  repeat (split_run; cbn [app fst snd]).
  all: cbn [ends_well calls app]; repeat split; try reflexivity; try discriminate.
  all: try (intros; discriminate).
Qed.

Lemma calls_app_call (pre post : list event) (c : callee) (err : option error) :
  calls (pre ++ Call c err :: post) <> 0.
Proof.
  induction pre as [|[to text|c' err'] pre IH]; cbn [app calls];
    [discriminate | exact IH | discriminate].
Qed.

Lemma printed_app (to : stream) (tr tr' : list event) :
  printed to (tr ++ tr') = printed to tr ++ printed to tr'.
Proof.
  induction tr as [|[[|] text|c err] tr IH]; cbn [app printed];
    [reflexivity | | | exact IH]; destruct to; rewrite IH;
    try reflexivity; now rewrite app_assoc_s.
Qed.

(** What [ends_well] gives for a call that returned an error. *)
Lemma ends_well_error (quiet : bool) (o : outcome unit) (pre post : list event)
      (c : callee) (e : error) :
  ends_well quiet (pre ++ Call c (Some e) :: post) o ->
  post = [Print Stderr ("msg: " ++ e ++ nl)] /\ o = Exit 1 /\
  (quiet = true -> printed Stderr pre = "").
Proof.
  induction pre as [|[[|] text|c' [e'|]] pre IH]; cbn [app ends_well printed].
  - intros [-> ->]. now repeat split.
  - exact IH.
  - intros [Hq H]. destruct (IH H) as (Hpost & Ho & _).
    repeat split; [exact Hpost | exact Ho |].
    intros ->. now destruct (calls_app_call pre post c (Some e) (Hq eq_refl)).
  - intros [H _]. destruct pre as [|x [|y pre]]; discriminate.
  - exact IH.
Qed.

(** C8, amended. When the version flag is not set and the server URL or
    the query is empty, or the lookback duration is zero, or the file
    path is empty while the token or the channel is empty, the program
    writes the usage text, the flag defaults and the closing line to the
    error stream and leaves with status 1, before any call. *)
Theorem usage_exit_when_required_missing (f : Flags) :
  versionFlag f = false ->
  promServer f = "" \/ query f = "" \/ duration f = 0%Z \/
  (file f = "" /\ (slackToken f = "" \/ channel f = "")) ->
  run f = ([Print Stderr (usage (arg0 f));
            Print Stderr flag_defaults;
            Print Stderr (more ++ nl)], Exit 1).
Proof.
  intros Hv Hreq.
  assert (Hm : required_missing f = true).
  { unfold required_missing.
    destruct Hreq as [H|[H|[H|[H [H'|H']]]]]; rewrite ?H, ?H'; cbn;
      rewrite ?orb_true_r; reflexivity. }
  unfold run, main. rewrite Hv, Hm. reflexivity.
Qed.

(** C9. A call that returns an error ends the run: behind it the trace
    holds the message of [fatal] on the error stream and nothing else,
    and the process leaves with status 1, which is not zero. This holds
    with the silent flag set too, and then the message is all that the
    error stream received. *)
Theorem every_error_is_fatal (f : Flags) (pre post : list event)
        (c : callee) (e : error) :
  fst (run f) = (pre ++ Call c (Some e) :: post)%list ->
  post = [Print Stderr ("msg: " ++ e ++ nl)] /\
  snd (run f) = Exit 1 /\
  status (snd (run f)) <> 0%Z /\
  (silent f = true -> printed Stderr (fst (run f)) = "msg: " ++ e ++ nl).
Proof.
  intros Htr. pose proof (run_ends_well f) as Ha. rewrite Htr in Ha.
  apply ends_well_error in Ha as (Hpost & Ho & Hquiet).
  repeat split; [exact Hpost | exact Ho | now rewrite Ho |].
  intros Hs. rewrite Htr, Hpost, printed_app, (Hquiet Hs).
  cbn [printed append]. now rewrite app_nil_r_s.
Qed.

(** C10. With an error, [fatal] writes the five bytes of its prefix, the
    text of the error and a line feed to the error stream and leaves
    with status 1. Its second argument has no part in what it does. *)
Theorem fatal_prints_error_only (e : error) (msg : string) (tr : list event) :
  fatal (Some e) msg tr = ((tr ++ [Print Stderr ("msg: " ++ e ++ nl)])%list, Exit 1) /\
  (forall (err : option error) (msg' : string), fatal err msg tr = fatal err msg' tr).
Proof.
  split; [reflexivity|]. now intros [e'|] msg'.
Qed.

End RunFacts.

(** * The program on concrete inputs *)

Section Runs.

Import Main.

(** The end-to-end scenario: two lines of different colours and the
    two legend entries. *)
Example scenario_chart :
  exists p,
    compose Sample.scenario "Test" = Ok p /\
    map LineStyle_Color (plotters p) = [(27, 158, 119); (217, 95, 2)]%Z /\
    map fst (Legend_entries p) = ["a=" ++ dq ++ "1" ++ dq; "a=" ++ dq ++ "2" ++ dq] /\
    map (fun l => map Y (XYs l)) (plotters p)
    = [[Sample.Num 10 1; Sample.Num 20 1; Sample.Num 15 1];
       [Sample.Num 5 1; Sample.Num 7 1; Sample.Num 6 1]] /\
    map (fun l => map X (XYs l)) (plotters p)
    = [[Sample.Num 0 0; Sample.Num 60 0; Sample.Num 120 0];
       [Sample.Num 0 0; Sample.Num 60 0; Sample.Num 120 0]].
Proof. eexists. split; [vm_compute; reflexivity|]. now vm_compute. Qed.

Example scenario_svg :
  Plot Sample.scenario "Test" "svg"
  = Ok (list_byte_of_string "svgTest" ++ [Byte.x2f; Byte.x2f])%list.
Proof. now vm_compute. Qed.

Example garbage_value :
  Plot [Sample.series_a1; Sample.series_bad] "Test" "svg"
  = Err "sample value not float: NaN-ish-garbage".
Proof. now vm_compute. Qed.

Example complete_run :
  printed Stderr (fst (run Sample.complete))
  = "Querying Prometheus " ++ dq ++ "up" ++ dq ++ nl ++
    "Creating plot " ++ dq ++ "Prometheus metrics" ++ dq ++ nl ++
    "Writing to 'out.png'" ++ nl ++
    "Done" ++ nl
  /\ snd (run Sample.complete) = Returned tt.
Proof. now vm_compute. Qed.

(** The scenario composes, and its chart has the lines of C1. *)
Lemma compose_one_line_per_series_witness :
  exists p,
    compose Sample.scenario "Test" = Ok p /\
    (length (plotters p) = length Sample.scenario /\
     forall (s : nat) (sample : SampleStream),
       nth_error Sample.scenario s = Some sample ->
       exists l,
         nth_error (plotters p) s = Some l /\
         Forall2 (fun v pt =>
                    X pt = float64_of_int64 (Time_Unix (Timestamp v)) /\
                    ParseFloat (SampleValue_String (Value v)) 64 = Ok (Y pt))
                 (Values sample) (XYs l)).
Proof.
  eexists. split; [vm_compute; reflexivity|].
  apply (compose_one_line_per_series Sample.scenario "Test"). vm_compute. reflexivity.
Defined.

(** Nine series compose: the chart has nine lines, the first in the
    first colour of the palette, and the ninth in that colour again. *)
Lemma color_by_index_mod_palette_witness :
  exists p,
    compose Sample.nine "Test" = Ok p /\
    length (plotters p) = 9 /\
    (exists l,
        nth_error (plotters p) 0 = Some l /\
        Some (LineStyle_Color l) = nth_error Sample.Dark2 0) /\
    (exists l l',
        nth_error (plotters p) 0 = Some l /\
        nth_error (plotters p) 8 = Some l' /\
        LineStyle_Color l = LineStyle_Color l').
Proof.
  destruct (compose Sample.nine "Test") as [p| |] eqn:H;
    [|vm_compute in H; discriminate | vm_compute in H; discriminate].
  exists p. split; [reflexivity|].
  destruct (color_by_index_mod_palette Sample.nine "Test" p H)
    as (palette & Hpal & Hlen & Hseries & _ & _ & Hperiod).
  injection Hpal as <-.
  split; [exact Hlen|]. split.
  - destruct (Hseries 0 Sample.series_a1 eq_refl) as (l & Hl & Hc).
    exists l. split; [exact Hl | now rewrite <- Hc].
  - apply (Hperiod 0). vm_compute. lia.
Defined.

(** One labelled series composes to a chart without legend. *)
Lemma single_series_no_legend_witness :
  exists p,
    compose [Sample.series_a1] "Test" = Ok p /\ Legend_entries p = [].
Proof.
  eexists. split; [vm_compute; reflexivity|].
  apply (proj1 single_series_no_legend [Sample.series_a1] "Test");
    [apply le_n | vm_compute; reflexivity].
Defined.

(** A value that is no number, in the second of two series, behind a
    value that parses. *)
Lemma unparseable_value_aborts_witness :
  (In Sample.series_bad [Sample.series_a1; Sample.series_bad] /\
   In Sample.garbage (Values Sample.series_bad) /\
   ParseFloat (SampleValue_String (Value Sample.garbage)) 64
   = Err ("strconv.ParseFloat: parsing " ++ dq ++ "NaN-ish-garbage" ++ dq ++ ": invalid syntax")) /\
  (forall b, Plot [Sample.series_a1; Sample.series_bad] "Test" "svg" <> Ok b) /\
  Plot [Sample.series_a1; Sample.series_bad] "Test" "svg"
  = Err "sample value not float: NaN-ish-garbage".
Proof.
  assert (H1 : In Sample.series_bad [Sample.series_a1; Sample.series_bad])
    by (right; left; reflexivity).
  assert (H2 : In Sample.garbage (Values Sample.series_bad))
    by (right; left; reflexivity).
  assert (H3 : ParseFloat (SampleValue_String (Value Sample.garbage)) 64
               = Err ("strconv.ParseFloat: parsing " ++ dq ++ "NaN-ish-garbage" ++ dq
                      ++ ": invalid syntax")) by reflexivity.
  split; [repeat split; [exact H1 | exact H2]|].
  destruct (unparseable_value_aborts [Sample.series_a1; Sample.series_bad] "Test" "svg"
              Sample.series_bad Sample.garbage _ H1 H2 H3)
    as (_ & Hnone & Hfirst).
  split; [exact Hnone|].
  eapply (Hfirst [Sample.series_a1] [] [Sample.point 0 "1.0"] [Sample.point 120000 "3"]);
    [reflexivity | reflexivity | vm_compute; reflexivity | vm_compute; reflexivity].
Defined.

(** A format the canvas does not know. *)
Lemma unsupported_format_fails_witness :
  NewFormattedCanvas (times 24 Centimeter) (times 20 Centimeter) "bmp"
  = Err "unsupported format: bmp" /\
  Plot Sample.scenario "Test" "bmp" = Err "failed creating image canvas: unsupported format: bmp".
Proof.
  assert (H : NewFormattedCanvas (times 24 Centimeter) (times 20 Centimeter) "bmp"
              = Err "unsupported format: bmp") by reflexivity.
  split; [exact H|].
  eapply (proj2 (unsupported_format_fails Sample.scenario "Test" "bmp" _ H)).
  vm_compute. reflexivity.
Defined.

(** A label with braces inside: the group runs to the last brace. *)
Lemma labelText_first_to_last_brace_witness :
  (occurs lbrace "req" = false /\
   occurs LF "path=/u/{id},job=api" = false /\
   occurs rbrace " 1" = false) /\
  FindStringSubmatch labelText "req{path=/u/{id},job=api} 1"
  = Some ["{path=/u/{id},job=api}"; "path=/u/{id},job=api"].
Proof.
  split; [repeat split|].
  exact (proj1 (proj2 (@labelText_first_to_last_brace Sample.types Sample.externals))
               "req" "path=/u/{id},job=api" " 1" eq_refl eq_refl eq_refl).
Defined.

(** The same label read as the specification words it. *)
Lemma labelText_not_first_closing_brace :
  labelOf "req{path=/u/{id},job=api}" = Some "path=/u/{id},job=api" /\
  firstBraces_spec "req{path=/u/{id},job=api}" = Some "path=/u/{id" /\
  labelOf "req{path=/u/{id},job=api}" <> firstBraces_spec "req{path=/u/{id},job=api}".
Proof. repeat split. discriminate. Qed.

(** A command line without server URL. *)
Lemma usage_exit_when_required_missing_witness :
  (versionFlag (Sample.with_server Sample.complete "" false) = false /\
   promServer (Sample.with_server Sample.complete "" false) = "") /\
  run (Sample.with_server Sample.complete "" false)
  = ([Print Stderr (usage "promplot");
      Print Stderr flag_defaults;
      Print Stderr (more ++ nl)], Exit 1).
Proof.
  split; [split; reflexivity|].
  exact (usage_exit_when_required_missing (Sample.with_server Sample.complete "" false)
           eq_refl (or_introl eq_refl)).
Defined.

(** The version flag alone: every required flag is missing, and the
    program prints its version and leaves with status 0. *)
Lemma version_flag_exits_zero :
  promServer Sample.version_only = "" /\
  query Sample.version_only = "" /\
  duration Sample.version_only = 0%Z /\
  file Sample.version_only = "" /\
  run Sample.version_only = ([Print Stdout ("promplot dev linux amd64" ++ nl)], Exit 0) /\
  status (snd (run Sample.version_only)) = 0%Z /\
  printed Stderr (fst (run Sample.version_only)) = "".
Proof. repeat split. Qed.

(** A server that is down, with the silent flag set. *)
Lemma every_error_is_fatal_witness :
  let f := Sample.with_server Sample.complete "http://down" true in
  let e := "connection refused: http://down" in
  fst (run f)
  = ([] ++ Call (CallMetrics "http://down" "up" 1500000000%Z 3600000000000%Z 100%Z) (Some e)
        :: [Print Stderr ("msg: " ++ e ++ nl)])%list /\
  snd (run f) = Exit 1 /\
  printed Stderr (fst (run f)) = "msg: " ++ e ++ nl.
Proof.
  intros f e.
  assert (H : fst (run f)
              = ([] ++ Call (CallMetrics "http://down" "up" 1500000000%Z 3600000000000%Z 100%Z)
                            (Some e)
                    :: [Print Stderr ("msg: " ++ e ++ nl)])%list) by reflexivity.
  destruct (every_error_is_fatal f _ _ _ _ H) as (_ & Ho & _ & Hq).
  split; [exact H|]. split; [exact Ho | exact (Hq eq_refl)].
Defined.

End Runs.


(** * Further properties of the chart *)

Section PlotExtras.

Context {T : Types} {E : Externals T}.

Lemma same_settings_refl (p : PlotT) : same_settings p p.
Proof. now repeat split. Qed.

(** The loop leaves the settings of the plot alone. *)
Lemma series_settings (re : Regexp) (n : nat) (colors : list Color) (rest : Matrix) :
  forall (s : nat) (p p' : PlotT),
    series re n colors s rest p = Ok p' -> same_settings p' p.
Proof.
  induction rest as [|sample rest IH]; intros s p p' H.
  - injection H as <-. apply same_settings_refl.
  - cbn [series] in H. unfold bindErr in H.
    destruct (points (Values sample)); try discriminate.
    destruct (NewLine a); try discriminate.
    destruct (nth_error colors (s mod paletteSize)); try discriminate.
    assert (Hq : forall q, same_settings q p ->
                   series re n colors (S s) rest q = Ok p' -> same_settings p' p).
    { intros q Hq Hrest. apply IH in Hrest. unfold same_settings in *.
      intuition congruence. }
    destruct (Nat.ltb 1 n).
    + destruct (FindStringSubmatch re _) as [m|].
      * destruct (nth_error m 1); try discriminate.
        revert H. apply Hq. now repeat split.
      * revert H. apply Hq. now repeat split.
    + revert H. apply Hq. now repeat split.
Qed.

(** X1. A composed chart carries the title it was given and the fixed
    settings of the program: the two fonts made for it, the padding of
    the title, the time ticks, and the legend on top with its offset. *)
Theorem compose_settings (metrics : Matrix) (title : string) (p : PlotT) :
  compose metrics title = Ok p ->
  exists titleFont textFont,
    MakeFont "Helvetica-Bold" Centimeter = Ok titleFont /\
    MakeFont "Helvetica" (Millimeters 3) = Ok textFont /\
    Title_Text p = title /\
    Title_Font p = titleFont /\
    Title_Padding p = Millimeters 20 /\
    X_Tick_Marker p = TimeTicks ("2006-01-02" ++ nl ++ "15:04") /\
    X_Tick_Label_Font p = textFont /\
    Y_Tick_Label_Font p = textFont /\
    Legend_Font p = textFont /\
    Legend_Top p = true /\
    Legend_YOffs p = Millimeters 15.
Proof.
  unfold compose, composeWith, bindErr. intros H.
  destruct plot_New as [p0| |]; try discriminate.
  destruct (MakeFont "Helvetica-Bold" Centimeter) as [titleFont| |] eqn:H1;
    try discriminate.
  destruct (MakeFont "Helvetica" (times 3 Millimeter)) as [textFont| |] eqn:H2;
    try discriminate.
  destruct (GetPalette TypeAny "Dark2" paletteSize); try discriminate.
  apply series_settings in H. unfold same_settings in H. cbn [configure] in H.
  exists titleFont, textFont. split; [reflexivity|]. split; [exact H2|].
  intuition.
Qed.

(** X2. Every line of a composed chart has the width of one point. *)
Theorem lines_one_point_wide (metrics : Matrix) (title : string) (p : PlotT) (l : Line) :
  compose metrics title = Ok p ->
  In l (plotters p) ->
  LineStyle_Width l = Points 1.
Proof.
  intros H Hl. apply composeWith_ok in H as (colors & _ & Hlines & _).
  apply In_nth_error in Hl as [i Hi].
  destruct (lines_at_nth_line _ _ _ _ _ _ Hlines Hi) as (sample & _ & _ & Hw & _).
  exact Hw.
Qed.

Lemma points_error (values : list SamplePair) (e : error) :
  points values = Err e ->
  exists v, In v values /\
            e = Errorf "sample value not float: " (SampleValue_String (Value v)).
Proof.
  induction values as [|v values IH]; cbn [points]; [discriminate|].
  unfold bindErr.
  destruct (ParseFloat (SampleValue_String (Value v)) 64).
  - destruct (points values) as [d|e'|]; try discriminate.
    intros [= <-]. destruct (IH eq_refl) as (v' & Hin & ->).
    exists v'. split; [now right | reflexivity].
  - intros [= <-]. exists v. split; [now left | reflexivity].
  - discriminate.
Qed.

Lemma series_error (re : Regexp) (n : nat) (colors : list Color) (rest : Matrix) :
  forall (s : nat) (p : PlotT) (e : error),
    series re n colors s rest p = Err e ->
    starts_with_one_of ["sample value not float: "; "failed creating line: "] e.
Proof.
  induction rest as [|sample rest IH]; intros s p e H; [discriminate|].
  cbn [series] in H. unfold bindErr in H.
  destruct (points (Values sample)) as [data|e'|] eqn:Hpts; try discriminate.
  - destruct (NewLine data) as [l|e'|]; try discriminate.
    + destruct (nth_error colors (s mod paletteSize)); try discriminate.
      destruct (Nat.ltb 1 n); [|now apply IH in H].
      destruct (FindStringSubmatch re _) as [m|]; [|now apply IH in H].
      destruct (nth_error m 1); [now apply IH in H | discriminate].
    + injection H as <-. exists "failed creating line: ", e'.
      split; [right; left; reflexivity | reflexivity].
  - injection H as <-. apply points_error in Hpts as (v & _ & ->).
    exists "sample value not float: ", (SampleValue_String (Value v)).
    split; [left; reflexivity | reflexivity].
Qed.

(** X3. Every error [Plot] returns starts with one of its seven texts,
    whatever the pattern in [labelText]: no error of another package is
    passed on bare. *)
Theorem Plot_errors_are_wrapped (re : Regexp) (metrics : Matrix)
        (title format : string) (e : error) :
  PlotWith re metrics title format = Err e ->
  starts_with_one_of Plot_error_texts e.
Proof.
  unfold PlotWith, composeWith, render, plot_New, bindErr, Errorf. intros H.
  destruct DefaultFont as [f0|e0|]; try discriminate;
    [|injection H as <-; exists "failed creating new plot: ", e0;
      split; [cbn; tauto | reflexivity]].
  destruct (MakeFont "Helvetica-Bold" Centimeter) as [titleFont|e0|];
    try discriminate;
    [|injection H as <-; exists "failed creating font: ", e0;
      split; [cbn; tauto | reflexivity]].
  destruct (MakeFont "Helvetica" (times 3 Millimeter)) as [textFont|e0|];
    try discriminate;
    [|injection H as <-; exists "failed creating font: ", e0;
      split; [cbn; tauto | reflexivity]].
  destruct (GetPalette TypeAny "Dark2" paletteSize) as [colors|e0|];
    try discriminate;
    [|injection H as <-; exists "cannot get color palette: ", e0;
      split; [cbn; tauto | reflexivity]].
  destruct (series re _ colors 0 metrics _) as [p|e0|] eqn:Hs; try discriminate.
  - destruct (NewFormattedCanvas _ _ format) as [c|e0|]; try discriminate;
      [|injection H as <-; exists "failed creating image canvas: ", e0;
        split; [cbn; tauto | reflexivity]].
    destruct (WriteTo _) as [b|e0|]; try discriminate.
    injection H as <-. exists "failed saving plot: ", e0.
    split; [cbn; tauto | reflexivity].
  - injection H as <-. apply series_error in Hs as (text & rest & Hin & ->).
    exists text, rest. split; [|reflexivity].
    cbn in Hin |- *. intuition.
Qed.

(** X4. When the points of a series do not pass the check of NewLine,
    and the series before it compose, the composition and [Plot] return
    the error of the check behind the words failed creating line; the
    series after it are not looked at. *)
Theorem line_check_aborts (pre post : Matrix) (sample : SampleStream)
        (title format : string) (p0 : PlotT) (data : list XY) (e : error) :
  compose pre title = Ok p0 ->
  points (Values sample) = Ok data ->
  CheckFloats data = Some e ->
  compose (pre ++ sample :: post)%list title = Err (Errorf "failed creating line: " e) /\
  Plot (pre ++ sample :: post)%list title format = Err (Errorf "failed creating line: " e).
Proof.
  intros Hpre Hdata Hcheck.
  assert (Hc : compose (pre ++ sample :: post)%list title
               = Err (Errorf "failed creating line: " e)).
  { unfold compose, composeWith, bindErr in *.
    destruct plot_New as [pn| |]; try discriminate.
    destruct (MakeFont "Helvetica-Bold" Centimeter) as [titleFont| |];
      try discriminate.
    destruct (MakeFont "Helvetica" (times 3 Millimeter)) as [textFont| |];
      try discriminate.
    destruct (GetPalette TypeAny "Dark2" paletteSize) as [colors| |];
      try discriminate.
    rewrite series_app.
    destruct (series_labelText_any _ _ _ (length (pre ++ sample :: post)) _ _
                (configure pn title titleFont textFont) _ Hpre) as [p1 ->].
    cbn [series]. unfold bindErr, NewLine. now rewrite Hdata, Hcheck. }
  split; [exact Hc|].
  unfold Plot, PlotWith, bindErr. unfold compose in Hc. now rewrite Hc.
Qed.

Lemma points_no_panic (values : list SamplePair) :
  (forall text, ParseFloat text 64 <> Panic) -> points values <> Panic.
Proof.
  intros Hparse. induction values as [|v values IH]; cbn [points]; [discriminate|].
  unfold bindErr.
  destruct (ParseFloat (SampleValue_String (Value v)) 64) eqn:Hv;
    [|discriminate | now apply Hparse in Hv].
  now destruct (points values).
Qed.

Lemma series_no_panic (colors : list Color) (rest : Matrix) :
  (forall text, ParseFloat text 64 <> Panic) ->
  paletteSize <= length colors ->
  forall (n s : nat) (p : PlotT), series labelText n colors s rest p <> Panic.
Proof.
  intros Hparse Hlen. induction rest as [|sample rest IH]; intros n s p;
    cbn [series]; [discriminate|].
  unfold bindErr, NewLine.
  destruct (points (Values sample)) as [data| |] eqn:Hpts;
    [|discriminate | now apply points_no_panic in Hpts].
  destruct (CheckFloats data); [discriminate|].
  destruct (nth_error colors (s mod paletteSize)) eqn:Hc.
  - destruct (Nat.ltb 1 n); [|apply IH].
    destruct (FindStringSubmatch labelText _) as [m|] eqn:Hm; [|apply IH].
    apply Find_labelText_two in Hm as (whole & name & ->). apply IH.
  - apply nth_error_None in Hc.
    pose proof (Nat.mod_upper_bound s paletteSize) as Hlt.
    unfold paletteSize in *. lia.
Qed.

(** Without nil entries the loop over the pointers is the loop over
    the streams. *)
Lemma seriesPtr_Some (re : Regexp) (n : nat) (colors : list Color) (rest : Matrix) :
  forall (s : nat) (p : PlotT),
    seriesPtr re n colors s (map Some rest) p = series re n colors s rest p.
Proof.
  induction rest as [|sample rest IH]; intros s p; [reflexivity|].
  cbn [map seriesPtr].
  change (series re n colors s (sample :: rest) p)
    with (series re n colors s ([sample] ++ rest)%list p).
  rewrite (series_app re n colors [sample] rest s p).
  cbn [length]. rewrite Nat.add_1_r.
  destruct (series re n colors s [sample] p); [apply IH | reflexivity | reflexivity].
Qed.

Lemma seriesPtr_no_panic (colors : list Color) (rest : MatrixPtr) :
  (forall text, ParseFloat text 64 <> Panic) ->
  paletteSize <= length colors ->
  Forall (fun entry => entry <> None) rest ->
  forall (n s : nat) (p : PlotT), seriesPtr labelText n colors s rest p <> Panic.
Proof.
  intros Hparse Hlen. induction 1 as [|[sample|] rest Hentry _ IH]; intros n s p;
    cbn [seriesPtr]; [discriminate | | congruence].
  destruct (series labelText n colors s [sample] p) as [p1| |] eqn:Hs;
    [apply IH | discriminate |].
  now apply (series_no_panic colors [sample] Hparse Hlen) in Hs.
Qed.

(** X5. Over the matrix as the slice of pointers it is: when no entry
    is nil, the palette holds at least eight colours, and the font,
    palette and parsing calls do not panic themselves, the composition
    does not panic, the two index expressions of the loop staying in
    range. A nil entry behind series that compose makes it panic. *)
Theorem composePtr_panics_only_on_nil (title : string) :
  (forall metrics : MatrixPtr,
      DefaultFont <> Panic ->
      (forall name size, MakeFont name size <> Panic) ->
      (forall text, ParseFloat text 64 <> Panic) ->
      (forall colors, GetPalette TypeAny "Dark2" 8 = Ok colors -> 8 <= length colors) ->
      GetPalette TypeAny "Dark2" 8 <> Panic ->
      Forall (fun entry => entry <> None) metrics ->
      composePtr metrics title <> Panic) /\
  (forall (pre : Matrix) (post : MatrixPtr) (p0 : PlotT),
      compose pre title = Ok p0 ->
      composePtr (map Some pre ++ None :: post)%list title = Panic) /\
  (forall metrics : Matrix,
      composePtr (map Some metrics) title = compose metrics title).
Proof.
  split; [|split].
  - intros metrics Hfont Hmake Hparse Hlen Hpal Hnil.
    unfold composePtr, plot_New, bindErr.
    destruct DefaultFont; [|discriminate | contradiction].
    destruct (MakeFont "Helvetica-Bold" Centimeter) eqn:H1;
      [|discriminate | now apply Hmake in H1].
    destruct (MakeFont "Helvetica" (times 3 Millimeter)) eqn:H2;
      [|discriminate | now apply Hmake in H2].
    change paletteSize with 8 at 1.
    destruct (GetPalette TypeAny "Dark2" 8) as [colors| |] eqn:H3;
      [|discriminate | contradiction].
    apply seriesPtr_no_panic; [exact Hparse | now apply Hlen | exact Hnil].
  - intros pre post p0 Hpre.
    unfold compose, composeWith, composePtr, bindErr in *.
    destruct plot_New as [pn| |]; try discriminate.
    destruct (MakeFont "Helvetica-Bold" Centimeter) as [titleFont| |];
      try discriminate.
    destruct (MakeFont "Helvetica" (times 3 Millimeter)) as [textFont| |];
      try discriminate.
    destruct (GetPalette TypeAny "Dark2" paletteSize) as [colors| |];
      try discriminate.
    set (pc := configure pn title titleFont textFont) in *.
    generalize (length (map Some pre ++ None :: post)). intros n.
    destruct (series_labelText_any _ _ _ n _ _ pc _ Hpre) as [p1 Hp1].
    clear Hpre. revert Hp1. generalize pc, 0. clear pc.
    induction pre as [|sample pre IH]; intros pc s Hp1; [reflexivity|].
    cbn [map app seriesPtr].
    change (sample :: pre) with ([sample] ++ pre)%list in Hp1.
    rewrite (series_app labelText n colors [sample] pre s pc) in Hp1.
    destruct (series labelText n colors s [sample] pc) as [p2| |];
      try discriminate.
    cbn [length] in Hp1. rewrite Nat.add_1_r in Hp1. now apply IH.
  - intros metrics. unfold composePtr, compose, composeWith, bindErr.
    destruct plot_New; try reflexivity.
    destruct (MakeFont "Helvetica-Bold" Centimeter); try reflexivity.
    destruct (MakeFont "Helvetica" (times 3 Millimeter)); try reflexivity.
    destruct (GetPalette TypeAny "Dark2" paletteSize); try reflexivity.
    now rewrite seriesPtr_Some, length_map.
Qed.

(** The legend of the loop, name by name. *)
Lemma legend_for_names (n : nat) (rest : Matrix) :
  2 <= n ->
  forall ls, length ls = length rest ->
             map fst (legend_for labelText n rest ls) = legend_names rest.
Proof.
  intros Hn. induction rest as [|sample rest IH]; intros [|l ls] Hlen;
    try discriminate; [reflexivity|].
  cbn [legend_for legend_names flat_map]. rewrite map_app, IH by now injection Hlen.
  f_equal. unfold legend_entry, labelOf.
  destruct (Nat.ltb_spec 1 n) as [_|Hle]; [|lia].
  destruct (FindStringSubmatch labelText _) as [m|]; [|reflexivity].
  now destruct (nth_error m 1).
Qed.

(** X6. For two or more series the names of the legend are the groups
    of the labels that match, in the order of the matrix; a series whose
    label does not match is passed over. *)
Theorem legend_names_of_compose (metrics : Matrix) (title : string) (p : PlotT) :
  2 <= length metrics ->
  compose metrics title = Ok p ->
  map fst (Legend_entries p) = legend_names metrics.
Proof.
  intros Hn H. apply composeWith_ok in H as (colors & _ & Hlines & Hleg).
  rewrite Hleg. apply legend_for_names; [exact Hn|].
  now apply lines_at_length in Hlines.
Qed.

Lemma legend_for_origin (re : Regexp) (n : nat) (rest : Matrix) :
  forall (ls : list Line) (name : string) (l : Line),
    In (name, l) (legend_for re n rest ls) ->
    exists i sample m,
      nth_error rest i = Some sample /\
      nth_error ls i = Some l /\
      FindStringSubmatch re (Metric_String (SMetric sample)) = Some m /\
      nth_error m 1 = Some name.
Proof.
  induction rest as [|sample rest IH]; intros [|l0 ls] name l Hin;
    cbn [legend_for] in Hin; try contradiction.
  apply in_app_or in Hin as [Hin|Hin].
  - unfold legend_entry in Hin.
    destruct (Nat.ltb 1 n); [|contradiction].
    destruct (FindStringSubmatch re _) as [m|] eqn:Hm; [|contradiction].
    destruct (nth_error m 1) as [name'|] eqn:Hname; [|contradiction].
    destruct Hin as [[= <- <-]|[]].
    exists 0, sample, m. now repeat split.
  - destruct (IH _ _ _ Hin) as (i & sample' & m & H1 & H2 & H3 & H4).
    exists (S i), sample', m. now repeat split.
Qed.

(** X7. Every entry of the legend of a composed chart belongs to a
    series: its line is the line of the chart at the index of the
    series, and its name is the group of the label of that series. *)
Theorem legend_entries_belong_to_series (metrics : Matrix) (title : string) (p : PlotT)
        (name : string) (l : Line) :
  compose metrics title = Ok p ->
  In (name, l) (Legend_entries p) ->
  exists i sample,
    nth_error metrics i = Some sample /\
    nth_error (plotters p) i = Some l /\
    labelOf (Metric_String (SMetric sample)) = Some name.
Proof.
  intros H Hin. apply composeWith_ok in H as (colors & _ & _ & Hleg).
  rewrite Hleg in Hin.
  destruct (legend_for_origin _ _ _ _ _ _ Hin) as (i & sample & m & H1 & H2 & H3 & H4).
  exists i, sample. repeat split; [exact H1 | exact H2|].
  unfold labelOf. now rewrite H3.
Qed.

(** X8. When the palette has no colour twice, two lines at different
    indices below eight have different colours. *)
Theorem first_eight_colors_differ (metrics : Matrix) (title : string) (p : PlotT)
        (palette : list Color) (i j : nat) (l l' : Line) :
  compose metrics title = Ok p ->
  GetPalette TypeAny "Dark2" 8 = Ok palette ->
  NoDup palette ->
  i < 8 -> j < 8 -> i <> j ->
  nth_error (plotters p) i = Some l ->
  nth_error (plotters p) j = Some l' ->
  LineStyle_Color l <> LineStyle_Color l'.
Proof.
  intros H Hpal Hnodup Hi Hj Hij Hl Hl' Heq.
  apply composeWith_ok in H as (palette' & Hpal' & Hlines & _).
  change paletteSize with 8 in Hpal'. rewrite Hpal in Hpal'. injection Hpal' as <-.
  destruct (lines_at_nth_line _ _ _ _ _ _ Hlines Hl) as (x & _ & _ & _ & Hc).
  destruct (lines_at_nth_line _ _ _ _ _ _ Hlines Hl') as (x' & _ & _ & _ & Hc').
  cbn [plus] in Hc, Hc'. change paletteSize with 8 in Hc, Hc'.
  rewrite Nat.mod_small in Hc, Hc' by assumption.
  rename Hc into Hcl, Hc' into Hcl'.
  apply Hij. apply (proj1 (NoDup_nth_error palette) Hnodup).
  - apply nth_error_Some. now rewrite Hcl.
  - now rewrite Hcl, Hcl', Heq.
Qed.

Lemma is_point_unique (values : list SamplePair) (d d' : list XY) :
  Forall2 is_point values d -> Forall2 is_point values d' -> d = d'.
Proof.
  intros H. revert d'. induction H as [|v pt values d [Hx Hy] _ IH];
    intros d' H'; inversion H' as [|v' pt' values' d'' [Hx' Hy'] Hrest]; subst;
    [reflexivity|].
  f_equal; [|now apply IH].
  destruct pt as [x y], pt' as [x' y']. cbn in *. congruence.
Qed.

Lemma lines_at_unique (colors : list Color) (rest : Matrix) :
  forall (s : nat) (ls ls' : list Line),
    lines_at colors s rest ls -> lines_at colors s rest ls' -> ls = ls'.
Proof.
  induction rest as [|sample rest IH]; intros s [|l ls] [|l' ls'] H H';
    cbn [lines_at] in *; try contradiction; [reflexivity|].
  destruct H as [(Hp & Hw & Hc) H], H' as [(Hp' & Hw' & Hc') H'].
  f_equal; [|now apply (IH (S s))].
  destruct l as [d w c], l' as [d' w' c']. cbn in *.
  rewrite (is_point_unique _ _ _ Hp Hp'). congruence.
Qed.

(** X9. The chart of a matrix extends the chart of each of its
    prefixes: when a matrix composes, so does every prefix of it, and
    the lines of the prefix are the first lines of the whole, unchanged
    by the series that follow. *)
Theorem compose_prefix (pre post : Matrix) (title : string) (p : PlotT) :
  compose (pre ++ post)%list title = Ok p ->
  exists p0 ls,
    compose pre title = Ok p0 /\
    plotters p = (plotters p0 ++ ls)%list /\
    length ls = length post.
Proof.
  unfold compose, composeWith, bindErr. intros H.
  destruct plot_New as [pn| |]; try discriminate.
  destruct (MakeFont "Helvetica-Bold" Centimeter) as [titleFont| |];
    try discriminate.
  destruct (MakeFont "Helvetica" (times 3 Millimeter)) as [textFont| |];
    try discriminate.
  destruct (GetPalette TypeAny "Dark2" paletteSize) as [colors| |];
    try discriminate.
  set (pc := configure pn title titleFont textFont) in *.
  rewrite series_app in H.
  destruct (series labelText _ colors 0 pre pc) as [p1| |] eqn:Hpre;
    try discriminate.
  destruct (series_labelText_any _ _ _ (length pre) _ _ pc _ Hpre) as [p0 Hp0].
  exists p0.
  apply series_ok in H as (ls & Hp & Hls & _).
  apply series_ok in Hpre as (ls1 & Hp1 & Hls1 & _).
  pose proof Hp0 as Hp0'. apply series_ok in Hp0' as (ls0 & Hp0' & Hls0 & _).
  exists ls. split; [exact Hp0|]. split.
  - now rewrite Hp, Hp1, Hp0', (lines_at_unique _ _ _ _ _ Hls1 Hls0).
  - now apply lines_at_length in Hls.
Qed.

End PlotExtras.

(** * Further properties of the label pattern *)

(** Where the dot-star stops: what it took holds no line feed. *)
Lemma greedy_dot_split (s : string) (cs : caps) (k : cont) (m : caps) :
  greedy AnyCharNotNL s cs k = Some m ->
  exists taken rest,
    s = taken ++ rest /\ occurs LF taken = false /\ k rest cs = Some m.
Proof.
  induction s as [|c s IH]; cbn [greedy accepts]; intros H.
  - now exists "", "".
  - destruct (Ascii.eqb c LF) eqn:Hc; cbn [negb] in H;
      [now exists "", (String c s)|].
    destruct (greedy AnyCharNotNL s cs k) as [m'|] eqn:Hm;
      [|now exists "", (String c s)].
    injection H as <-. destruct (IH eq_refl) as (taken & rest & -> & Ht & Hk).
    exists (String c taken), rest. cbn [append occurs]. now rewrite Hc, Ht.
Qed.

Lemma matchAt_labelText_sound (s : string) (m : caps) :
  matchAt labelText s = Some m ->
  exists name post,
    s = String lbrace (name ++ String rbrace post) /\
    m = [String lbrace (name ++ String rbrace ""); name] /\
    occurs LF name = false.
Proof.
  unfold matchAt, labelText. cbn [exec NumSubexp plus repeat accepts]. intros H.
  destruct s as [|c s]; [discriminate|].
  destruct (Ascii.eqb c "{") eqn:Hc; [|discriminate].
  apply Ascii.eqb_eq in Hc as ->.
  apply greedy_dot_split in H as (name & rest & -> & Hname & H).
  destruct rest as [|c' post]; [discriminate|].
  destruct (Ascii.eqb c' "}") eqn:Hc'; [|discriminate].
  apply Ascii.eqb_eq in Hc' as ->. injection H as <-.
  exists name, post. split; [reflexivity|]. split; [|exact Hname].
  change "}"%char with rbrace. change "{"%char with lbrace.
  rewrite (consumed_app name (String rbrace post)).
  change (String lbrace (name ++ String rbrace post))
    with (String lbrace (name ++ (String rbrace "" ++ post))).
  rewrite <- app_assoc_s.
  change (String lbrace ((name ++ String rbrace "") ++ post))
    with (String lbrace (name ++ String rbrace "") ++ post).
  now rewrite consumed_app.
Qed.

(** X10. What [labelText] finds in any string is a stretch of the
    string that opens and closes with a brace, and the group is the
    text between the two, without any line feed. *)
Theorem labelText_match_sound (s : string) (m : list string) :
  FindStringSubmatch labelText s = Some m ->
  exists pre name post,
    s = pre ++ String lbrace (name ++ String rbrace post) /\
    m = [String lbrace (name ++ String rbrace ""); name] /\
    occurs LF name = false.
Proof.
  induction s as [|c s IH]; cbn [FindStringSubmatch]; intros H.
  - destruct (matchAt labelText "") eqn:Hm; [|discriminate].
    injection H as <-. apply matchAt_labelText_sound in Hm as (name & post & Hs & _).
    discriminate.
  - destruct (matchAt labelText (String c s)) eqn:Hm.
    + injection H as <-.
      apply matchAt_labelText_sound in Hm as (name & post & -> & Hm & Hname).
      now exists "", name, post.
    + destruct (IH H) as (pre & name & post & -> & Hm' & Hname).
      now exists (String c pre), name, post.
Qed.

(** * Further properties of a run *)

Section RunExtras.

Context {T : Types} {E : Externals T}.

Import Main.

Ltac atom x :=
  lazymatch x with
  | context [match _ with _ => _ end] => fail
  | _ => idtac
  end.

Ltac case_on_run :=
  match goal with
  | |- context [match ?x with _ => _ end] => atom x; destruct x eqn:?
  end.

Ltac all_runs :=
  unfold run, main, copy_target;
  cbv [bind when log checked call emit fatal ret os_Exit panic flag_Usage err_of
       negb];
  repeat (case_on_run; cbn [app fst snd]).

Ltac which_event H :=
  cbn [In] in H; repeat (destruct H as [H|H]);
  try contradiction; try discriminate.

(** X11. The calls of a run are made in the order Metrics, Plot,
    os.Create, io.Copy, Slack, and none of them twice: nothing is tried
    again. *)
Theorem calls_in_pipeline_order (f : Flags) : ascending (ranks (fst (run f))).
Proof.
  all_runs.
  all: cbn [ranks rank ascending ascending_from]; repeat split; lia.
Qed.

Lemma copy_gets_plot_bytes (f : Flags) (dst : Dest) (data : list Byte.byte)
      (err : option error) :
  In (Call (CallCopy dst data) err) (fst (run f)) ->
  exists metrics,
    Metrics (promServer f) (query f) (queryTime f) (duration f) step = Ok metrics /\
    Plot metrics (title f) (format f) = Ok data /\
    dst = copy_target f /\
    file f <> "".
Proof.
  all_runs.
  all: intros H; which_event H.
  all: injection H as <- <- _.
  all: eexists; repeat split; try eassumption; try reflexivity.
  all: try (apply String.eqb_neq; assumption).
Qed.

Lemma slack_gets_plot_bytes (f : Flags) (token chan ttl : string)
      (data : list Byte.byte) (err : option error) :
  In (Call (CallSlack token chan ttl data) err) (fst (run f)) ->
  exists metrics,
    Metrics (promServer f) (query f) (queryTime f) (duration f) step = Ok metrics /\
    Plot metrics (title f) (format f) = Ok data /\
    token = slackToken f /\ chan = channel f /\ ttl = title f /\
    slackToken f <> "".
Proof.
  all_runs.
  all: intros H; which_event H.
  all: injection H as <- <- <- <- _.
  all: eexists; repeat split; try eassumption; try reflexivity.
  all: try (apply String.eqb_neq; assumption).
Qed.

(** X12. Whatever is copied to the file or to standard output, and
    whatever is uploaded, is the bytes that [Plot] returned for the
    matrix that Metrics returned, with the title and format of the
    command line. The copy goes to standard output for the path - and
    to the created file otherwise; the upload gets the token, channel
    and title of the command line. *)
Theorem sinks_receive_plot_bytes (f : Flags) (data : list Byte.byte)
        (err : option error) :
  (forall dst,
      In (Call (CallCopy dst data) err) (fst (run f)) ->
      exists metrics,
        Metrics (promServer f) (query f) (queryTime f) (duration f) 100 = Ok metrics /\
        Plot metrics (title f) (format f) = Ok data /\
        dst = copy_target f /\
        file f <> "") /\
  (forall token chan ttl,
      In (Call (CallSlack token chan ttl data) err) (fst (run f)) ->
      exists metrics,
        Metrics (promServer f) (query f) (queryTime f) (duration f) 100 = Ok metrics /\
        Plot metrics (title f) (format f) = Ok data /\
        token = slackToken f /\ chan = channel f /\ ttl = title f /\
        slackToken f <> "").
Proof.
  split; intros; [now apply (copy_gets_plot_bytes f _ _ err)
                 | now apply (slack_gets_plot_bytes f _ _ _ _ err)].
Qed.

(** X13. os.Create is called with the file path of the command line
    only, and never for the empty path or for the path - that stands
    for standard output. *)
Theorem create_only_for_real_paths (f : Flags) (path : string) (err : option error) :
  In (Call (CallCreate path) err) (fst (run f)) ->
  path = file f /\ path <> "" /\ path <> "-".
Proof.
  all_runs.
  all: intros H; which_event H.
  all: injection H as <- _.
  all: repeat split; apply String.eqb_neq; assumption.
Qed.

Lemma required_missing_false (f : Flags) :
  required_missing f = false ->
  promServer f <> "" /\ query f <> "" /\ duration f <> 0%Z /\
  (file f <> "" \/ (slackToken f <> "" /\ channel f <> "")).
Proof.
  unfold required_missing. intros H.
  apply orb_false_elim in H as [H Hsink].
  apply orb_false_elim in H as [H Hd].
  apply orb_false_elim in H as [Hu Hq].
  apply String.eqb_neq in Hu, Hq. apply Z.eqb_neq in Hd.
  repeat split; try assumption.
  apply andb_false_iff in Hsink as [Hf|Hs].
  - left. now apply String.eqb_neq.
  - right. apply orb_false_elim in Hs as [Ht Hc].
    split; now apply String.eqb_neq.
Qed.

(** X14. No call is made, neither to the server nor to a sink, unless
    the version flag is unset, the server URL and the query are not
    empty, the lookback duration is not zero, and a file path or both
    the token and the channel are given. *)
Theorem calls_need_required_flags (f : Flags) (c : callee) (err : option error) :
  In (Call c err) (fst (run f)) ->
  versionFlag f = false /\
  promServer f <> "" /\ query f <> "" /\ duration f <> 0%Z /\
  (file f <> "" \/ (slackToken f <> "" /\ channel f <> "")).
Proof.
  intros H.
  assert (Hb : versionFlag f = false /\ required_missing f = false).
  { revert H. all_runs.
    all: intros H; which_event H.
    all: split; reflexivity. }
  destruct Hb as [Hv Hm]. split; [exact Hv|]. now apply required_missing_false.
Qed.

(** X15. With the version flag set the program prints the version line
    on standard output and leaves with status 0, whatever the other
    flags are: no usage text, no call. *)
Theorem version_flag_first (f : Flags) :
  versionFlag f = true ->
  run f = ([Print Stdout ("promplot " ++ version ++ " " ++ GOOS ++ " " ++ GOARCH ++ nl)],
           Exit 0).
Proof.
  intros Hv. unfold run, main. now rewrite Hv.
Qed.

Lemma silent_success_no_print (f : Flags) :
  silent f = true ->
  versionFlag f = false ->
  status (snd (run f)) = 0%Z ->
  printed Stderr (fst (run f)) = "" /\ printed Stdout (fst (run f)) = "".
Proof.
  all_runs.
  all: cbn [status printed]; intros; try discriminate; split; reflexivity.
Qed.

Lemma success_stdout_copy (f : Flags) (data : list Byte.byte) (err : option error) :
  status (snd (run f)) = 0%Z ->
  In (Call (CallCopy Stdout_file data) err) (fst (run f)) ->
  file f = "-" /\ err = None /\
  exists metrics,
    Metrics (promServer f) (query f) (queryTime f) (duration f) step = Ok metrics /\
    Plot metrics (title f) (format f) = Ok data.
Proof.
  all_runs.
  all: cbn [status]; intros Hst H; try discriminate; which_event H.
  all: injection H as <- <-.
  all: split; [now apply String.eqb_eq|]; split; [reflexivity|].
  all: eexists; split; [reflexivity | eassumption].
Qed.

Lemma success_stdout_copied (f : Flags) :
  versionFlag f = false ->
  status (snd (run f)) = 0%Z ->
  file f = "-" ->
  exists data, In (Call (CallCopy Stdout_file data) None) (fst (run f)).
Proof.
  intros Hv Hst Hf. revert Hv Hst.
  unfold run, main, copy_target. rewrite Hf.
  cbv [bind when log checked call emit fatal ret os_Exit panic flag_Usage err_of
       negb].
  cbn [String.eqb Ascii.eqb Bool.eqb].
  repeat (case_on_run; cbn [app fst snd]).
  all: cbn [status]; intros; try discriminate.
  all: eexists; cbn [In]; repeat first [left; reflexivity | right].
Qed.

(** X16. With the silent flag set and the version flag unset, a run
    that ends with status 0 has written nothing through fmt, on neither
    stream. Standard output receives bytes in one case only: for the
    file path -, where io.Copy writes to it the bytes [Plot] returned,
    without error; for any other path nothing is copied to it. *)
Theorem silent_success_output (f : Flags) :
  silent f = true ->
  versionFlag f = false ->
  status (snd (run f)) = 0%Z ->
  printed Stderr (fst (run f)) = "" /\
  printed Stdout (fst (run f)) = "" /\
  (forall (data : list Byte.byte) (err : option error),
      In (Call (CallCopy Stdout_file data) err) (fst (run f)) ->
      file f = "-" /\ err = None /\
      exists metrics,
        Metrics (promServer f) (query f) (queryTime f) (duration f) 100 = Ok metrics /\
        Plot metrics (title f) (format f) = Ok data) /\
  (file f = "-" ->
   exists data, In (Call (CallCopy Stdout_file data) None) (fst (run f))).
Proof.
  intros Hs Hv Hst.
  destruct (silent_success_no_print f Hs Hv Hst) as [He Ho].
  split; [exact He|]. split; [exact Ho|]. split.
  - intros data err. now apply success_stdout_copy.
  - now apply success_stdout_copied.
Qed.

(** X17. When the earlier steps succeed and a token is given, the
    upload is attempted with the channel as it is on the command line.
    With a file path given this holds for an empty channel too: the
    test of the required flags looks at the channel only when no file
    path is given. *)
Theorem upload_attempted (f : Flags) (metrics : Matrix) (data : list Byte.byte) :
  versionFlag f = false ->
  required_missing f = false ->
  Metrics (promServer f) (query f) (queryTime f) (duration f) 100 = Ok metrics ->
  Plot metrics (title f) (format f) = Ok data ->
  (file f = "" \/
   (file f = "-" /\ io_Copy Stdout_file data = Ok tt) \/
   (file f <> "" /\ file f <> "-" /\
    os_Create (file f) = Ok tt /\ io_Copy (Created (file f)) data = Ok tt)) ->
  slackToken f <> "" ->
  In (Call (CallSlack (slackToken f) (channel f) (title f) data)
           (err_of (Slack (slackToken f) (channel f) (title f) data)))
     (fst (run f)).
Proof.
  intros Hv Hm Hmetrics Hplot Hfile Htoken.
  apply String.eqb_neq in Htoken.
  unfold run, main.
  cbv [bind when log checked call emit fatal ret os_Exit panic flag_Usage negb].
  rewrite Hv, Hm. change step with 100%Z. 
  destruct (silent f).
  all: rewrite Hmetrics; cbn [err_of app]; rewrite Hplot; cbn [err_of app].
  all: destruct Hfile as [Hf|[[Hf Hcopy]|(Hf & Hf' & Hcreate & Hcopy)]].
  all: try (rewrite Hf; cbn [String.eqb Ascii.eqb Bool.eqb]).
  all: try (apply String.eqb_neq in Hf, Hf'; rewrite Hf, Hf', Hcreate; cbn [err_of app]).
  all: try (rewrite Hcopy; cbn [err_of app]).
  all: rewrite Htoken.
  all: destruct (Slack _ _ _ _); cbn [err_of app fst In]; tauto.
Qed.

End RunExtras.

(** * The further properties on concrete inputs *)

Section ExtraRuns.

Import Main.

Ltac pick := repeat first [left; reflexivity | right].

Lemma compose_settings_witness :
  exists p,
    compose Sample.scenario "Test" = Ok p /\
    Title_Text p = "Test" /\ Legend_Top p = true /\
    Title_Padding p = Millimeters 20 /\ Legend_YOffs p = Millimeters 15.
Proof.
  destruct (compose Sample.scenario "Test") as [p| |] eqn:H;
    [|vm_compute in H; discriminate | vm_compute in H; discriminate].
  exists p. split; [reflexivity|].
  destruct (compose_settings Sample.scenario "Test" p H)
    as (f1 & f2 & _ & _ & H1 & _ & H2 & _ & _ & _ & _ & H3 & H4).
  repeat split; assumption.
Defined.

Lemma lines_one_point_wide_witness :
  exists p l,
    compose Sample.scenario "Test" = Ok p /\
    In l (plotters p) /\ LineStyle_Width l = Points 1.
Proof.
  eexists. eexists. split; [vm_compute; reflexivity|].
  assert (Hin : forall A (x : A) xs, In x (x :: xs)) by (intros; now left).
  split; [apply Hin|].
  eapply (lines_one_point_wide Sample.scenario "Test");
    [vm_compute; reflexivity | apply Hin].
Defined.

Lemma Plot_errors_are_wrapped_witness :
  PlotWith labelText Sample.scenario "Test" "bmp"
  = Err "failed creating image canvas: unsupported format: bmp" /\
  starts_with_one_of Plot_error_texts
    "failed creating image canvas: unsupported format: bmp".
Proof.
  assert (H : PlotWith labelText Sample.scenario "Test" "bmp"
              = Err "failed creating image canvas: unsupported format: bmp")
    by (vm_compute; reflexivity).
  split; [exact H|].
  exact (Plot_errors_are_wrapped labelText Sample.scenario "Test" "bmp" _ H).
Defined.

(** A series with NaN in front of a series with a value that does not
    parse: the error is that of the line. *)
Lemma line_check_aborts_witness :
  Plot [Sample.series_a1; Sample.series_nan; Sample.series_bad] "Test" "svg"
  = Err "failed creating line: plotter: NaN or infinite data point".
Proof.
  eapply (proj2 (line_check_aborts [Sample.series_a1] [Sample.series_bad]
                   Sample.series_nan "Test" "svg" _ _ _ _ _ _)).
  Unshelve.
  all: try (vm_compute; reflexivity).
Defined.

Lemma Sample_ParseFloat_no_panic (text : string) : Sample.ParseFloat text 64 <> Panic.
Proof.
  unfold Sample.ParseFloat.
  repeat match goal with
         | |- context [if ?b then _ else _] => destruct b
         | |- context [match ?x with _ => _ end] => destruct x
         end; discriminate.
Qed.

Lemma composePtr_panics_only_on_nil_witness :
  composePtr [Some Sample.series_a1; Some Sample.series_nan; Some Sample.series_bad] "Test"
  <> Panic /\
  composePtr [Some Sample.series_a1; None; Some Sample.series_a2] "Test" = Panic.
Proof.
  destruct (@composePtr_panics_only_on_nil Sample.types Sample.externals "Test")
    as (Hsafe & Hnil & _).
  split.
  - apply Hsafe.
    + discriminate.
    + intros name size. cbn. unfold Sample.MakeFont.
      destruct ((name =? "Helvetica") || (name =? "Helvetica-Bold")); discriminate.
    + apply Sample_ParseFloat_no_panic.
    + intros colors [= <-]. cbn. lia.
    + discriminate.
    + repeat constructor; discriminate.
  - destruct (compose [Sample.series_a1] "Test") as [p0| |] eqn:H;
      [|vm_compute in H; discriminate | vm_compute in H; discriminate].
    exact (Hnil [Sample.series_a1] [Some Sample.series_a2] p0 H).
Defined.

Lemma legend_names_of_compose_witness :
  exists p,
    compose Sample.scenario "Test" = Ok p /\
    map fst (Legend_entries p) = ["a=" ++ dq ++ "1" ++ dq; "a=" ++ dq ++ "2" ++ dq].
Proof.
  destruct (compose Sample.scenario "Test") as [p| |] eqn:H;
    [|vm_compute in H; discriminate | vm_compute in H; discriminate].
  exists p. split; [reflexivity|].
  exact (legend_names_of_compose Sample.scenario "Test" p (le_n 2) H).
Defined.

Lemma legend_entries_belong_to_series_witness :
  exists p name l,
    compose Sample.scenario "Test" = Ok p /\
    In (name, l) (Legend_entries p) /\
    exists i sample,
      nth_error Sample.scenario i = Some sample /\
      nth_error (plotters p) i = Some l /\
      labelOf (Metric_String (SMetric sample)) = Some name.
Proof.
  eexists. eexists. eexists. split; [vm_compute; reflexivity|].
  assert (Hin : forall A (x : A) xs, In x (x :: xs)) by (intros; now left).
  split; [apply Hin|].
  eapply (legend_entries_belong_to_series Sample.scenario "Test");
    [vm_compute; reflexivity | apply Hin].
Defined.

Lemma Dark2_NoDup : NoDup Sample.Dark2.
Proof.
  unfold Sample.Dark2.
  repeat (constructor; [cbn; intuition discriminate|]). constructor.
Qed.

Lemma first_eight_colors_differ_witness :
  exists p l l',
    compose Sample.nine "Test" = Ok p /\
    nth_error (plotters p) 0 = Some l /\
    nth_error (plotters p) 1 = Some l' /\
    LineStyle_Color l <> LineStyle_Color l'.
Proof.
  eexists. eexists. eexists. split; [vm_compute; reflexivity|].
  split; [reflexivity|]. split; [reflexivity|].
  eapply (first_eight_colors_differ Sample.nine "Test" _ Sample.Dark2 0 1);
    [vm_compute; reflexivity | reflexivity | exact Dark2_NoDup | lia | lia | lia
     | reflexivity | reflexivity].
Defined.

Lemma compose_prefix_witness :
  exists p p0 ls,
    compose ([Sample.series_a1] ++ [Sample.series_a2])%list "Test" = Ok p /\
    compose [Sample.series_a1] "Test" = Ok p0 /\
    plotters p = (plotters p0 ++ ls)%list /\
    length ls = 1.
Proof.
  eexists.
  assert (H : compose ([Sample.series_a1] ++ [Sample.series_a2])%list "Test" = Ok _)
    by (vm_compute; reflexivity).
  destruct (compose_prefix [Sample.series_a1] [Sample.series_a2] "Test" _ H)
    as (p0 & ls & H0 & Hp & Hl).
  exists p0, ls. repeat split; assumption.
Defined.

Lemma labelText_match_sound_witness :
  FindStringSubmatch labelText "req{path=/u/{id},job=api} 1"
  = Some ["{path=/u/{id},job=api}"; "path=/u/{id},job=api"] /\
  exists pre name post,
    "req{path=/u/{id},job=api} 1" = pre ++ String lbrace (name ++ String rbrace post) /\
    ["{path=/u/{id},job=api}"; "path=/u/{id},job=api"]
    = [String lbrace (name ++ String rbrace ""); name] /\
    occurs LF name = false.
Proof.
  split; [reflexivity|].
  exact (labelText_match_sound "req{path=/u/{id},job=api} 1" _ eq_refl).
Defined.

Lemma sinks_receive_plot_bytes_witness :
  In (Call (CallCopy (Created "out.png") Sample.png_default) None)
     (fst (run Sample.complete)) /\
  exists metrics,
    Metrics "http://localhost:9090" "up" 1500000000%Z 3600000000000%Z 100 = Ok metrics /\
    Plot metrics "Prometheus metrics" "png" = Ok Sample.png_default /\
    Created "out.png" = copy_target Sample.complete /\
    file Sample.complete <> "".
Proof.
  assert (H : In (Call (CallCopy (Created "out.png") Sample.png_default) None)
                 (fst (run Sample.complete))) by (vm_compute; pick).
  split; [exact H|].
  exact (proj1 (sinks_receive_plot_bytes Sample.complete Sample.png_default None) _ H).
Defined.

Lemma create_only_for_real_paths_witness :
  In (Call (CallCreate "out.png") None) (fst (run Sample.complete)) /\
  "out.png" = file Sample.complete /\ "out.png" <> "" /\ "out.png" <> "-".
Proof.
  assert (H : In (Call (CallCreate "out.png") None) (fst (run Sample.complete)))
    by (vm_compute; pick).
  split; [exact H|].
  exact (create_only_for_real_paths Sample.complete "out.png" None H).
Defined.

Lemma calls_need_required_flags_witness :
  In (Call (CallCreate "out.png") None) (fst (run Sample.complete)) /\
  versionFlag Sample.complete = false /\
  promServer Sample.complete <> "" /\ query Sample.complete <> "" /\
  duration Sample.complete <> 0%Z /\
  (file Sample.complete <> "" \/
   (slackToken Sample.complete <> "" /\ channel Sample.complete <> "")).
Proof.
  assert (H : In (Call (CallCreate "out.png") None) (fst (run Sample.complete)))
    by (vm_compute; pick).
  split; [exact H|].
  exact (calls_need_required_flags Sample.complete _ None H).
Defined.

Lemma version_flag_first_witness :
  run Sample.version_only = ([Print Stdout ("promplot dev linux amd64" ++ nl)], Exit 0).
Proof. exact (version_flag_first Sample.version_only eq_refl). Defined.

(** The silent flag with the path -: nothing through fmt, and the image
    on standard output. *)
Lemma silent_success_output_witness :
  status (snd (run Sample.silent_stdout)) = 0%Z /\
  printed Stderr (fst (run Sample.silent_stdout)) = "" /\
  printed Stdout (fst (run Sample.silent_stdout)) = "" /\
  In (Call (CallCopy Stdout_file Sample.png_T) None) (fst (run Sample.silent_stdout)).
Proof.
  assert (Hst : status (snd (run Sample.silent_stdout)) = 0%Z)
    by (vm_compute; reflexivity).
  destruct (silent_success_output Sample.silent_stdout eq_refl eq_refl Hst)
    as (He & Ho & Honly & Hcopy).
  split; [exact Hst|]. split; [exact He|]. split; [exact Ho|].
  destruct (Hcopy eq_refl) as [data Hin].
  destruct (Honly data None Hin) as (_ & _ & metrics & Hm & Hp).
  assert (Hdata : data = Sample.png_T).
  { assert (Hm' : Ok metrics = Ok Sample.scenario) by (rewrite <- Hm; reflexivity).
    injection Hm' as ->.
    assert (Hp' : Ok data = Ok Sample.png_T)
      by (rewrite <- Hp; vm_compute; reflexivity).
    now injection Hp'. }
  now rewrite <- Hdata.
Defined.

(** A file path, a token and no channel: the upload is attempted. *)
Lemma upload_attempted_witness :
  channel Sample.no_channel = "" /\
  In (Call (CallSlack "xoxp-1" "" "T" Sample.png_T) None) (fst (run Sample.no_channel)).
Proof.
  split; [reflexivity|].
  refine (upload_attempted Sample.no_channel Sample.scenario Sample.png_T
            eq_refl eq_refl eq_refl _ _ _).
  - vm_compute. reflexivity.
  - right. right. repeat split; try discriminate.
  - discriminate.
Defined.

End ExtraRuns.
